(** * capture_improved.py: the detection loop of NDIObjectDetector

    A shallow embedding of [src/capture_improved.py] and the properties of
    its per-frame pipeline, notification throttle, session statistics and
    interactive reconfiguration.

    Modelling conventions.
    - Python [float] values (confidences, the threshold, clock readings) are
      modelled by their exact rational value in [Q]; comparisons are the
      rational ones and [a - b] is exact.
    - Python [int] values are [Z]; [str] is [string] over 8-bit characters,
      with [lower] and [strip] acting on the ASCII range.
    - [self] is the record [Detector]; everything outside the object (clock,
      console, background threads, disk) is the record [World].  Methods are
      computations in the state-and-exception monad [M]. *)

From Stdlib Require Import ZArith QArith Lqa List String Ascii Bool Lia.
Import ListNotations.

Set Implicit Arguments.

(** ** Python string primitives used by the source *)

Module PyStr.

(** [str.lower] on one character: 'A'..'Z' are shifted, the rest is kept. *)
Definition lower_char (c : ascii) : ascii :=
  let n := nat_of_ascii c in
  if ((65 <=? n) && (n <=? 90))%nat then ascii_of_nat (n + 32) else c.

Fixpoint lower (s : string) : string :=
  match s with
  | EmptyString => EmptyString
  | String c r => String (lower_char c) (lower r)
  end.

(** [str.isspace] on the ASCII range: TAB, LF, VT, FF, CR, the four
    separators FS..US and the space. *)
Definition is_space (c : ascii) : bool :=
  let n := nat_of_ascii c in
  (((9 <=? n) && (n <=? 13)) || ((28 <=? n) && (n <=? 32)))%nat.

Fixpoint lstrip (s : string) : string :=
  match s with
  | EmptyString => EmptyString
  | String c r => if is_space c then lstrip r else s
  end.

Fixpoint rstrip (s : string) : string :=
  match s with
  | EmptyString => EmptyString
  | String c r =>
      match rstrip r with
      | EmptyString => if is_space c then EmptyString else String c EmptyString
      | r' => String c r'
      end
  end.

(** [s.strip()] *)
Definition strip (s : string) : string := rstrip (lstrip s).

(** [s.split(sep)] for a one-character separator: never the empty list. *)
Fixpoint split (sep : ascii) (s : string) : list string :=
  match s with
  | EmptyString => [EmptyString]
  | String c r =>
      if Ascii.eqb c sep then EmptyString :: split sep r
      else match split sep r with
           | [] => [String c EmptyString]
           | h :: t => String c h :: t
           end
  end.

(** [x in l] for a list of strings. *)
Definition py_in (x : string) (l : list string) : bool :=
  existsb (String.eqb x) l.

(** Truthiness of a string: [if s:]. *)
Definition truthy (s : string) : bool :=
  match s with EmptyString => false | _ => true end.

End PyStr.

(** ** Data model *)

Module Config.
(** The configuration dictionary, one field per key. *)
Record t := mk {
  model_path : string;
  confidence_threshold : Q;
  target_classes : list string;
  video_source : Z;
  ndi_sources : list string;
  display_size : Z * Z;
  show_all_detections : bool;
  save_detections : bool;
  output_file : string
}.

Definition with_model_path (v : string) (c : t) : t :=
  mk v (confidence_threshold c) (target_classes c) (video_source c)
     (ndi_sources c) (display_size c) (show_all_detections c)
     (save_detections c) (output_file c).

Definition with_confidence_threshold (v : Q) (c : t) : t :=
  mk (model_path c) v (target_classes c) (video_source c)
     (ndi_sources c) (display_size c) (show_all_detections c)
     (save_detections c) (output_file c).

Definition with_target_classes (v : list string) (c : t) : t :=
  mk (model_path c) (confidence_threshold c) v (video_source c)
     (ndi_sources c) (display_size c) (show_all_detections c)
     (save_detections c) (output_file c).

Definition with_video_source (v : Z) (c : t) : t :=
  mk (model_path c) (confidence_threshold c) (target_classes c) v
     (ndi_sources c) (display_size c) (show_all_detections c)
     (save_detections c) (output_file c).
End Config.

(** [detection_stats]: the two counters of the session. *)
Record Stats := mkStats {
  total_detections : Z;
  target_detections : Z
}.

(** One element of [results.boxes]: class id, confidence and the corner
    coordinates already converted to integers. *)
Record Box := mkBox {
  cls : Z;
  conf : Q;
  xyxy : Z * Z * Z * Z
}.

(** The dictionary built for every kept box. *)
Record Detection := mkDetection {
  class : string;
  confidence : Q;
  bbox : Z * Z * Z * Z;
  timestamp : Q
}.

(** BGR colours of the annotations. *)
Inductive Colour := Green | Blue.

(** What [cv2.rectangle] followed by [cv2.putText] adds to a frame for one
    detection, and the status panel of [draw_ui_overlay]. *)
Inductive DrawOp :=
| BoxLabel (rect : Z * Z * Z * Z) (colour : Colour)
           (name : string) (c : Q) (target_marker : bool)
| Panel (targets : list string) (threshold : Q) (count : Z)
        (paused_banner help_panel : bool).

(** A frame: the captured pixels and the annotations drawn over them. *)
Record Frame := mkFrame {
  pixels : list Z;
  overlay : list DrawOp
}.

Definition draw (op : DrawOp) (f : Frame) : Frame :=
  mkFrame (pixels f) (overlay f ++ [op]).

(** Console lines, one constructor per [print] (or [input] prompt). *)
Inductive Msg :=
| MsgPaused | MsgResumed | MsgConfigurationSaved
| MsgCurrentThreshold (q : Q) | MsgEnterThreshold | MsgTypeInConsole
| MsgPromptConfidence
| MsgThresholdSet (q : Q) | MsgMustBeBetween | MsgKeepingThreshold
| MsgInvalidInput | MsgCancelledThreshold
| MsgCurrentTargets (l : list string) | MsgAvailableClasses (l : list string)
| MsgEnterTargets | MsgPromptTargets
| MsgTargetsSet (l : list string) | MsgKeepingTargets | MsgCancelledTargets
| MsgSettingsUpdated
| MsgErrorLoadingConfig | MsgErrorSavingConfig | MsgErrorSavingDetections
| MsgModelLoaded (path : string) | MsgErrorLoadingModel
| MsgFailedToReadFrame | MsgInterrupted | MsgDetectionStats (s : Stats)
| MsgErrorShowingNotification.

(** Chronological record of what the object does to the outside, together
    with the stores to the throttle field. *)
Inductive Event :=
| Printed (m : Msg)
| ThreadStart (info : Q)
| MessageBoxShown (info : Q)
| StoreLastNotificationTime (t : Q)
| ConfigWritten (c : Config.t)
| DetectionsAppended (file : string) (ds : list Detection)
| ImShow (f : Frame)
| Released.

(** One item typed on the console: a line, or an interrupt (Ctrl-C).  An
    exhausted console is end of file. *)
Inductive Typed := Line (s : string) | CtrlC.

Record World := mkWorld {
  clock : nat -> Q;          (* the n-th reading of time.time() *)
  clock_reads : nat;
  stdin : list Typed;
  disk_ok : bool;            (* whether opening a file for writing succeeds *)
  log : list Event
}.

(** The fields of [NDIObjectDetector].  The model is the opaque inference
    function; [class_names] keeps the insertion order of the dictionary. *)
Record Detector := mkDetector {
  model : option (Frame -> list Box);
  class_names : list (Z * string);
  config : Config.t;
  detection_stats : Stats;
  paused : bool;
  show_help : bool;
  last_notification_time : Q;
  notification_cooldown : Q
}.

Definition with_config (c : Config.t) (d : Detector) : Detector :=
  mkDetector (model d) (class_names d) c (detection_stats d) (paused d)
             (show_help d) (last_notification_time d) (notification_cooldown d).

Definition with_detection_stats (s : Stats) (d : Detector) : Detector :=
  mkDetector (model d) (class_names d) (config d) s (paused d)
             (show_help d) (last_notification_time d) (notification_cooldown d).

Definition with_paused (b : bool) (d : Detector) : Detector :=
  mkDetector (model d) (class_names d) (config d) (detection_stats d) b
             (show_help d) (last_notification_time d) (notification_cooldown d).

Definition with_show_help (b : bool) (d : Detector) : Detector :=
  mkDetector (model d) (class_names d) (config d) (detection_stats d)
             (paused d) b (last_notification_time d) (notification_cooldown d).

Definition with_last_notification_time (t : Q) (d : Detector) : Detector :=
  mkDetector (model d) (class_names d) (config d) (detection_stats d)
             (paused d) (show_help d) t (notification_cooldown d).

Definition with_model (m : option (Frame -> list Box)) (n : list (Z * string))
  (d : Detector) : Detector :=
  mkDetector m n (config d) (detection_stats d) (paused d)
             (show_help d) (last_notification_time d) (notification_cooldown d).

(** ** The monad of methods: state [self] and world, with exceptions *)

Inductive Exn :=
| KeyError (k : Z)
| EOFError
| KeyboardInterrupt
| ValueError.

Inductive Res (A : Type) :=
| Ret (a : A)
| Raise (e : Exn).
Arguments Raise {A} e.

Definition St : Type := Detector * World.

Definition M (A : Type) : Type := St -> Res A * St.

Definition ret {A} (a : A) : M A := fun s => (Ret a, s).

Definition raise {A} (e : Exn) : M A := fun s => (Raise e, s).

Definition bind {A B} (m : M A) (k : A -> M B) : M B :=
  fun s => match m s with
           | (Ret a, s') => k a s'
           | (Raise e, s') => (Raise e, s')
           end.

(** [try: m except <handled>: h] *)
Definition try_except {A} (m : M A) (handled : Exn -> bool) (h : Exn -> M A)
  : M A :=
  fun s => match m s with
           | (Ret a, s') => (Ret a, s')
           | (Raise e, s') => if handled e then h e s' else (Raise e, s')
           end.

Declare Scope py_scope.
Delimit Scope py_scope with py.
Notation "x <- c1 ;; c2" := (bind c1 (fun x => c2))
  (at level 100, c1 at next level, right associativity) : py_scope.
Notation "c1 ;; c2" := (bind c1 (fun _ => c2))
  (at level 100, right associativity) : py_scope.
Open Scope py_scope.

Definition get_self : M Detector := fun s => (Ret (fst s), s).

Definition set_self (f : Detector -> Detector) : M unit :=
  fun s => (Ret tt, (f (fst s), snd s)).

Definition emit (e : Event) : M unit :=
  fun s => let w := snd s in
           (Ret tt, (fst s, mkWorld (clock w) (clock_reads w) (stdin w)
                                    (disk_ok w) (log w ++ [e]))).

Definition print (m : Msg) : M unit := emit (Printed m).

(** [time.time()] *)
Definition time_time : M Q :=
  fun s => let w := snd s in
           (Ret (clock w (clock_reads w)),
            (fst s, mkWorld (clock w) (S (clock_reads w)) (stdin w)
                            (disk_ok w) (log w))).

(** [input(prompt)]: the prompt is written, then one item is consumed. *)
Definition input (prompt : Msg) : M string :=
  print prompt ;;
  fun s => let w := snd s in
           match stdin w with
           | [] => (Raise EOFError, s)
           | it :: rest =>
               let s' := (fst s, mkWorld (clock w) (clock_reads w) rest
                                         (disk_ok w) (log w)) in
               match it with
               | Line l => (Ret l, s')
               | CtrlC => (Raise KeyboardInterrupt, s')
               end
           end.

Definition get_disk_ok : M bool := fun s => (Ret (disk_ok (snd s)), s).

(** ** Notification and frame processing *)

(** The body of the background thread, [show_message]: [outcome] tells
    whether the message box could be presented.  The closure refers to
    [detection_info] only, never to [self]; a failure is caught inside the
    thread and printed.  The thread shares the memory of the process, so
    its body is a computation on the same state. *)
Inductive Presentation := Presented | PresentationFailed.

Definition show_message (detection_info : Q) (outcome : Presentation)
  : M unit :=
  match outcome with
  | Presented => emit (MessageBoxShown detection_info)
  | PresentationFailed => print MsgErrorShowingNotification
  end.

(** [show_notification]: a daemon thread that will run [show_message] is
    started; [detection_info] carries the confidence shown in the box. *)
Definition show_notification (detection_info : Q) : M unit :=
  emit (ThreadStart detection_info).

(** [self.class_names[cls_id]] *)
Fixpoint lookup_name (names : list (Z * string)) (k : Z) : option string :=
  match names with
  | [] => None
  | (k', v) :: rest => if Z.eqb k' k then Some v else lookup_name rest k
  end.

(** [cls_name in [tc.lower() for tc in self.config["target_classes"]]],
    line 176. *)
Definition is_target_of (cfg : Config.t) (cls_name : string) : bool :=
  PyStr.py_in cls_name (map PyStr.lower (Config.target_classes cfg)).

(** The body of the [for box in results.boxes] loop; [acc] holds the frame
    being annotated and the list [detections]. *)
Definition process_box (box : Box) (acc : Frame * list Detection)
  : M (Frame * list Detection) :=
  let '(frame, detections) := acc in
  self <- get_self ;;
  let cls_id := cls box in
  match lookup_name (class_names self) cls_id with
  | None => raise (KeyError cls_id)
  | Some name =>
      let cls_name := PyStr.lower name in
      let conf := conf box in
      if Qle_bool (Config.confidence_threshold (config self)) conf then
        ts <- time_time ;;
        let detection := mkDetection cls_name conf (xyxy box) ts in
        let detections := detections ++ [detection] in
        let is_target := is_target_of (config self) cls_name in
        (if String.eqb cls_name "person" && is_target then
           current_time <- time_time ;;
           self <- get_self ;;
           if Qle_bool (notification_cooldown self)
                       (current_time - last_notification_time self)
           then
             show_notification conf ;;
             set_self (with_last_notification_time current_time) ;;
             emit (StoreLastNotificationTime current_time)
           else ret tt
         else ret tt) ;;
        let frame :=
          if is_target || Config.show_all_detections (config self) then
            let colour := if is_target then Green else Blue in
            draw (BoxLabel (xyxy box) colour cls_name conf is_target) frame
          else frame in
        ret (frame, detections)
      else ret (frame, detections)
  end.

Fixpoint process_boxes (boxes : list Box) (acc : Frame * list Detection)
  : M (Frame * list Detection) :=
  match boxes with
  | [] => ret acc
  | box :: rest => acc' <- process_box box acc ;; process_boxes rest acc'
  end.

(** [process_frame] *)
Definition process_frame (frame : Frame) : M (Frame * list Detection) :=
  self <- get_self ;;
  match model self with
  | None => ret (frame, [])
  | Some net => process_boxes (net frame) (frame, [])
  end.

(** ** Overlay, persistence *)

Definition draw_ui_overlay (frame : Frame) : M Frame :=
  self <- get_self ;;
  ret (draw (Panel (Config.target_classes (config self))
                   (Config.confidence_threshold (config self))
                   (target_detections (detection_stats self))
                   (paused self) (show_help self)) frame).

Definition save_config (cfg : option Config.t) : M unit :=
  self <- get_self ;;
  let cfg := match cfg with None => config self | Some c => c end in
  ok <- get_disk_ok ;;
  if ok then emit (ConfigWritten cfg) else print MsgErrorSavingConfig.

(** The objects found in a detection dictionary when it is handed to
    [json.dumps].  The coordinates come from
    [box.xyxy[0].cpu().numpy().astype(int)] (line 164): the four entries
    of "bbox" are numpy integers, not Python [int]s. *)
Inductive PyScalar :=
| VStr (s : string)
| VFloat (q : Q)
| VInt (z : Z)
| VNumpyInt (z : Z).

Inductive PyValue :=
| Scalar (x : PyScalar)
| VList (l : list PyScalar).

(** The dictionary of lines 167-172 as the encoder meets it. *)
Definition as_dict (det : Detection) : list (string * PyValue) :=
  let '(x1, y1, x2, y2) := bbox det in
  [("class"%string, Scalar (VStr (class det)));
   ("confidence"%string, Scalar (VFloat (confidence det)));
   ("bbox"%string,
    VList [VNumpyInt x1; VNumpyInt y1; VNumpyInt x2; VNumpyInt y2]);
   ("timestamp"%string, Scalar (VFloat (timestamp det)))].

(** Whether [json.dumps] returns: the default encoder handles [str],
    [float], [int], lists and dictionaries with string keys, and raises
    [TypeError] on any other object, a numpy integer among them. *)
Definition scalar_encodable (x : PyScalar) : bool :=
  match x with
  | VStr _ | VFloat _ | VInt _ => true
  | VNumpyInt _ => false
  end.

Definition value_encodable (v : PyValue) : bool :=
  match v with
  | Scalar x => scalar_encodable x
  | VList l => forallb scalar_encodable l
  end.

Definition json_encodable (dict : list (string * PyValue)) : bool :=
  forallb (fun kv => value_encodable (snd kv)) dict.

(** The loop of lines 333-334 on the open file: the detections whose line
    was written, and whether the loop ran to its end ([false]: a
    [json.dumps] raised, and the loop stopped there). *)
Fixpoint write_records (detections : list Detection)
  : list Detection * bool :=
  match detections with
  | [] => ([], true)
  | det :: rest =>
      if json_encodable (as_dict det) then
        let '(written, finished) := write_records rest in
        (det :: written, finished)
      else ([], false)
  end.

(** [save_detections].  When the flag is set and there are detections the
    [try] block is entered; [open] raises when the file cannot be opened,
    [json.dumps] raises on a detection it cannot encode, and
    [except Exception] prints the error line in both cases.  What was
    written before the exception stays in the file. *)
Definition save_detections (detections : list Detection) : M unit :=
  self <- get_self ;;
  if Config.save_detections (config self)
     && match detections with [] => false | _ => true end
  then
    ok <- get_disk_ok ;;
    if ok then
      match write_records detections with
      | (written, finished) =>
          (match written with
           | [] => ret tt
           | _ :: _ =>
               emit (DetectionsAppended (Config.output_file (config self))
                                        written)
           end) ;;
          if finished then ret tt else print MsgErrorSavingDetections
      end
    else print MsgErrorSavingDetections
  else ret tt.

(** ** Interactive reconfiguration *)

(** The value of [float(s)] when it does not raise: a rational, or one of
    inf, -inf, nan. *)
Inductive PyFloat := Finite (q : Q) | NonFinite.

(** [0.0 <= x <= 1.0]; every comparison with inf of the wrong side or with
    nan is false. *)
Definition in_unit_interval (x : PyFloat) : bool :=
  match x with
  | Finite q => Qle_bool 0 q && Qle_bool q 1
  | NonFinite => false
  end.

Definition ord (c : ascii) : Z := Z.of_nat (nat_of_ascii c).

Section Interaction.

(** The builtin [float] on strings; [None] is [ValueError]. *)
Variable py_float : string -> option PyFloat.

Definition float (s : string) : M PyFloat :=
  match py_float s with
  | Some x => ret x
  | None => raise ValueError
  end.

Definition change_confidence : M unit :=
  self <- get_self ;;
  print (MsgCurrentThreshold (Config.confidence_threshold (config self))) ;;
  print MsgEnterThreshold ;;
  print MsgTypeInConsole ;;
  try_except
    (typed <- input MsgPromptConfidence ;;
     let new_conf_input := PyStr.strip typed in
     if PyStr.truthy new_conf_input then
       new_conf <- float new_conf_input ;;
       match new_conf with
       | Finite q =>
           if in_unit_interval new_conf then
             self <- get_self ;;
             set_self (with_config
                         (Config.with_confidence_threshold q (config self))) ;;
             print (MsgThresholdSet q)
           else print MsgMustBeBetween
       | NonFinite => print MsgMustBeBetween
       end
     else print MsgKeepingThreshold)
    (fun e => match e with
              | ValueError | EOFError | KeyboardInterrupt => true
              | _ => false
              end)
    (fun e => match e with
              | ValueError => print MsgInvalidInput
              | _ => print MsgCancelledThreshold
              end) ;;
  print MsgSettingsUpdated.

Definition change_target : M unit :=
  self <- get_self ;;
  print (MsgCurrentTargets (Config.target_classes (config self))) ;;
  print (MsgAvailableClasses (firstn 10 (map snd (class_names self)))) ;;
  print MsgEnterTargets ;;
  print MsgTypeInConsole ;;
  try_except
    (typed <- input MsgPromptTargets ;;
     let new_targets := PyStr.strip typed in
     if PyStr.truthy new_targets then
       let l := map (fun t => PyStr.lower (PyStr.strip t))
                    (PyStr.split "," new_targets) in
       self <- get_self ;;
       set_self (with_config (Config.with_target_classes l (config self))) ;;
       print (MsgTargetsSet l)
     else print MsgKeepingTargets)
    (fun e => match e with
              | EOFError | KeyboardInterrupt => true
              | _ => false
              end)
    (fun _ => print MsgCancelledTargets) ;;
  print MsgSettingsUpdated.

(** [handle_keyboard_input]: [false] asks the loop to stop. *)
Definition handle_keyboard_input (key : Z) : M bool :=
  if Z.eqb key (ord "q") then ret false
  else
    (if Z.eqb key (ord " ") then
       self <- get_self ;;
       set_self (with_paused (negb (paused self))) ;;
       print (if negb (paused self) then MsgPaused else MsgResumed)
     else if Z.eqb key (ord "h") then
       self <- get_self ;;
       set_self (with_show_help (negb (show_help self)))
     else if Z.eqb key (ord "c") then change_confidence
     else if Z.eqb key (ord "t") then change_target
     else if Z.eqb key (ord "s") then
       save_config None ;; print MsgConfigurationSaved
     else ret tt) ;;
    ret true.

(** ** The main loop *)

(** What one iteration receives from the capture layer and the window:
    the result of [cap.read()] ([None] when [ret] is false) and the value
    of [cv2.waitKey(1)]. *)
Record TickInput := mkTick {
  cap_read : option Frame;
  wait_key : Z
}.

Inductive Flow := Continue | Break.

(** [d["class"] in [tc.lower() for tc in self.config["target_classes"]]],
    line 373. *)
Definition counts_as_target (cfg : Config.t) (d : Detection) : bool :=
  PyStr.py_in (class d) (map PyStr.lower (Config.target_classes cfg)).

(** Lines 371-374. *)
Definition update_stats (detections : list Detection) : M unit :=
  self <- get_self ;;
  set_self (with_detection_stats
              (mkStats (total_detections (detection_stats self)
                        + Z.of_nat (List.length detections))
                       (target_detections (detection_stats self)))) ;;
  self <- get_self ;;
  let target_detections_list :=
    filter (counts_as_target (config self)) detections in
  self <- get_self ;;
  set_self (with_detection_stats
              (mkStats (total_detections (detection_stats self))
                       (target_detections (detection_stats self)
                        + Z.of_nat (List.length target_detections_list)))).

(** The running branch of an iteration once a frame was read: process
    the frame, update the statistics, save the detections. *)
Definition process_and_count (frame : Frame) : M (option Frame) :=
  r <- process_frame frame ;;
  let '(processed_frame, detections) := r in
  update_stats detections ;;
  save_detections detections ;;
  ret (Some processed_frame).

(** The end of an iteration: overlay, display, one key. *)
Definition show_and_poll (key_code : Z) (processed_frame : Frame) : M Flow :=
  annotated <- draw_ui_overlay processed_frame ;;
  emit (ImShow annotated) ;;
  let key := Z.land key_code 255 in
  continue <- handle_keyboard_input key ;;
  if continue then ret Continue else ret Break.

(** One iteration of [while True]. *)
Definition tick (i : TickInput) : M Flow :=
  self <- get_self ;;
  shown <-
    (if negb (paused self) then
       match cap_read i with
       | None => print MsgFailedToReadFrame ;; ret None
       | Some frame => process_and_count frame
       end
     else
       match cap_read i with
       | None => ret None
       | Some frame => ret (Some frame)
       end) ;;
  match shown with
  | None => ret Break
  | Some processed_frame => show_and_poll (wait_key i) processed_frame
  end.

(** The iterations driven by a finite prefix of inputs; [Continue] means
    the loop is still running when the prefix ends. *)
Fixpoint while_true (inputs : list TickInput) : M Flow :=
  match inputs with
  | [] => ret Continue
  | i :: rest =>
      f <- tick i ;;
      match f with
      | Continue => while_true rest
      | Break => ret Break
      end
  end.

(** [finally]: the capture is released and the statistics are printed. *)
Definition finally_block : M unit :=
  emit Released ;;
  self <- get_self ;;
  print (MsgDetectionStats (detection_stats self)).

(** The [try ... except KeyboardInterrupt ... finally] around the loop. *)
Definition run_loop (inputs : list TickInput) : M Flow :=
  fun s =>
    match try_except (while_true inputs)
                     (fun e => match e with
                               | KeyboardInterrupt => true
                               | _ => false
                               end)
                     (fun _ => print MsgInterrupted ;; ret Break) s with
    | (Ret Continue, s') => (Ret Continue, s')
    | (Ret Break, s') => (finally_block ;; ret Break) s'
    | (Raise e, s') => (finally_block ;; raise e) s'
    end.

End Interaction.

(** ** Construction: [load_config], [__init__], and [main] up to [run] *)

(** The keys present in a configuration file that parsed as JSON. *)
Record FileConfig := mkFileConfig {
  file_model_path : option string;
  file_confidence_threshold : option Q;
  file_target_classes : option (list string);
  file_video_source : option Z;
  file_ndi_sources : option (list string);
  file_display_size : option (Z * Z);
  file_show_all_detections : option bool;
  file_save_detections : option bool;
  file_output_file : option string
}.

(** The configuration file as [load_config] finds it. *)
Inductive ConfigFile :=
| Missing
| Unreadable
| Parsed (p : FileConfig).

Definition default_config : Config.t :=
  Config.mk "yolov8n.pt"%string (1 # 2) ["person"%string] (-1) []
            (1280, 720)%Z false false "detections.json"%string.

Definition or_default {A} (o : option A) (dflt : A) : A :=
  match o with Some v => v | None => dflt end.

(** The loop [for key, value in default_config.items()] of [load_config]:
    keys of the file are kept, missing ones take the default. *)
Definition merge_defaults (p : FileConfig) : Config.t :=
  Config.mk
    (or_default (file_model_path p) (Config.model_path default_config))
    (or_default (file_confidence_threshold p)
                (Config.confidence_threshold default_config))
    (or_default (file_target_classes p)
                (Config.target_classes default_config))
    (or_default (file_video_source p) (Config.video_source default_config))
    (or_default (file_ndi_sources p) (Config.ndi_sources default_config))
    (or_default (file_display_size p) (Config.display_size default_config))
    (or_default (file_show_all_detections p)
                (Config.show_all_detections default_config))
    (or_default (file_save_detections p)
                (Config.save_detections default_config))
    (or_default (file_output_file p) (Config.output_file default_config)).

Definition world_emit (e : Event) (w : World) : World :=
  mkWorld (clock w) (clock_reads w) (stdin w) (disk_ok w) (log w ++ [e]).

Definition load_config (file : ConfigFile) (w : World) : Config.t * World :=
  match file with
  | Parsed p => (merge_defaults p, w)
  | Unreadable => (default_config, world_emit (Printed MsgErrorLoadingConfig) w)
  | Missing =>
      (default_config,
       if disk_ok w then world_emit (ConfigWritten default_config) w
       else world_emit (Printed MsgErrorSavingConfig) w)
  end.

(** [NDIObjectDetector.__init__] *)
Definition init (file : ConfigFile) (w : World) : St :=
  let '(cfg, w') := load_config file w in
  (mkDetector None [] cfg (mkStats 0 0) false true 0 5, w').

(** The command line after [parse_args]. *)
Record Args := mkArgs {
  arg_model : option string;
  arg_source : option Z;
  arg_confidence : option Q;
  arg_targets : option string
}.

Definition split_targets (s : string) : list string :=
  map (fun t => PyStr.lower (PyStr.strip t)) (PyStr.split "," s).

(** The overrides of [main], lines 417-424. *)
Definition apply_overrides (args : Args) (c : Config.t) : Config.t :=
  let c := match arg_model args with
           | Some m => if PyStr.truthy m then Config.with_model_path m c else c
           | None => c
           end in
  let c := match arg_source args with
           | Some v => Config.with_video_source v c
           | None => c
           end in
  let c := match arg_confidence args with
           | Some q => Config.with_confidence_threshold q c
           | None => c
           end in
  match arg_targets args with
  | Some t => if PyStr.truthy t
              then Config.with_target_classes (split_targets t) c else c
  | None => c
  end.

(** [main] up to the call [detector.run()]. *)
Definition main_detector (args : Args) (file : ConfigFile) (w : World) : St :=
  let '(d, w') := init file w in
  (with_config (apply_overrides args (config d)) d, w').

(** [load_model]: [yolo] is the constructor [YOLO], which gives the
    inference function and its class names, or fails ([None]). *)
Definition load_model (model_path : string)
  (yolo : string -> option ((Frame -> list Box) * list (Z * string)))
  : M bool :=
  match yolo model_path with
  | Some (net, names) =>
      set_self (with_model (Some net) names) ;;
      print (MsgModelLoaded model_path) ;;
      print (MsgAvailableClasses (map snd names)) ;;
      ret true
  | None => print MsgErrorLoadingModel ;; ret false
  end.

(** ** A [float] for plain decimal literals

    Signs, digits and at most one point; enough to run the model on inputs
    such as "1.5".  The properties below hold for any [py_float]. *)

Definition digit_of (c : ascii) : option Z :=
  let n := nat_of_ascii c in
  if ((48 <=? n) && (n <=? 57))%nat then Some (Z.of_nat (n - 48)) else None.

Fixpoint decimal_digits (s : string) (num : Z) (den : positive)
  (after_point seen_digit : bool) : option Q :=
  match s with
  | EmptyString => if seen_digit then Some (num # den) else None
  | String c r =>
      if Ascii.eqb c "."%char then
        if after_point then None
        else decimal_digits r num den true seen_digit
      else match digit_of c with
           | Some v =>
               decimal_digits r (10 * num + v)
                              (if after_point then 10 * den else den)%positive
                              after_point true
           | None => None
           end
  end.

Definition decimal_float (s : string) : option PyFloat :=
  match PyStr.strip s with
  | String "-"%char r =>
      option_map (fun q => Finite (- q)) (decimal_digits r 0 1 false false)
  | String "+"%char r => option_map Finite (decimal_digits r 0 1 false false)
  | r => option_map Finite (decimal_digits r 0 1 false false)
  end.

(** ** Vocabulary of the properties *)

(** [m] relates every state it is started in to the state it leaves,
    whether it returns or raises. *)
Definition preserves (R : St -> St -> Prop) {A} (m : M A) : Prop :=
  forall s, R s (snd (m s)).

(** A relation on detectors, read on states. *)
Definition lift (RD : Detector -> Detector -> Prop) (s s' : St) : Prop :=
  RD (fst s) (fst s').

(** Both counters grow, and the target counter never grows by more than the
    total counter. *)
Definition stats_grow (d d' : Detector) : Prop :=
  (total_detections (detection_stats d)
   <= total_detections (detection_stats d'))%Z /\
  (target_detections (detection_stats d)
   <= target_detections (detection_stats d'))%Z /\
  (target_detections (detection_stats d')
   - target_detections (detection_stats d)
   <= total_detections (detection_stats d')
      - total_detections (detection_stats d))%Z.


(** ** What a frame yields *)

(** The test of line 163. *)
Definition kept (cfg : Config.t) (box : Box) : bool :=
  Qle_bool (Config.confidence_threshold cfg) (conf box).

(** The class id of the box resolves in [class_names]. *)
Definition resolvable (names : list (Z * string)) (box : Box) : Prop :=
  lookup_name names (cls box) <> None.

(** The lowercase label of a box. *)
Definition label_of (names : list (Z * string)) (box : Box) : string :=
  match lookup_name names (cls box) with
  | Some name => PyStr.lower name
  | None => EmptyString
  end.

(** A detection without its timestamp, and the one a box gives. *)
Definition core (det : Detection) : string * Q * (Z * Z * Z * Z) :=
  (class det, confidence det, bbox det).

Definition box_core (names : list (Z * string)) (box : Box)
  : string * Q * (Z * Z * Z * Z) :=
  (label_of names box, conf box, xyxy box).

(** The labels drawn with the target marker. *)
Definition is_target_mark (op : DrawOp) : bool :=
  match op with
  | BoxLabel _ _ _ _ marker => marker
  | Panel _ _ _ _ _ => false
  end.

Definition target_marks (f : Frame) : nat :=
  List.length (filter is_target_mark (overlay f)).

(** The detectors agree on everything but the throttle timestamp. *)
Definition same_but_throttle (d d' : Detector) : Prop :=
  model d' = model d /\ class_names d' = class_names d /\
  config d' = config d /\ detection_stats d' = detection_stats d /\
  paused d' = paused d /\ show_help d' = show_help d /\
  notification_cooldown d' = notification_cooldown d.

(** The detectors agree on one field. *)
Definition keeps {X} (field : Detector -> X) (d d' : Detector) : Prop :=
  field d' = field d.

(** ** A running example: the default configuration on a frame with a
    person at 0.6 and a dog at 0.9 *)

Definition example_clock (n : nat) : Q := inject_Z (100 + Z.of_nat n).

Definition example_world : World := mkWorld example_clock 0 [] true [].

Definition example_net (_ : Frame) : list Box :=
  [mkBox 0 (6 # 10) (10, 20, 110, 220)%Z; mkBox 16 (9 # 10) (5, 6, 70, 80)%Z].

Definition example_names : list (Z * string) :=
  [(0%Z, "person"%string); (16%Z, "dog"%string)].

Definition blank_frame : Frame := mkFrame [] [].

(** The detector of [main] without overrides, its model loaded. *)
Definition example_detector : Detector :=
  with_model (Some example_net) example_names
             (fst (main_detector (mkArgs None None None None) Missing
                                 example_world)).

(** The example detector with an empty target-class list. *)
Definition example_detector_no_targets : Detector :=
  with_config (Config.with_target_classes [] (config example_detector))
              example_detector.

Definition example_tick : TickInput := mkTick (Some blank_frame) (-1).

(** ** The notification throttle *)

(** The times stored into [last_notification_time], in order. *)
Fixpoint fire_times (evs : list Event) : list Q :=
  match evs with
  | [] => []
  | StoreLastNotificationTime t :: rest => t :: fire_times rest
  | _ :: rest => fire_times rest
  end.

(** The number of alert threads started. *)
Fixpoint alerts (evs : list Event) : nat :=
  match evs with
  | [] => 0
  | ThreadStart _ :: rest => S (alerts rest)
  | _ :: rest => alerts rest
  end.

(** Each time of [ts] is at least [c] after the one before it, the first
    one at least [c] after [previous]. *)
Fixpoint spaced (c previous : Q) (ts : list Q) : Prop :=
  match ts with
  | [] => True
  | t :: rest => (c <= t - previous)%Q /\ spaced c t rest
  end.

(** The events logged between two worlds. *)
Definition events_since (w w' : World) : list Event :=
  skipn (List.length (log w)) (log w').

(** From [s] to [s'] the log was extended, every alert came with a store of
    its time, the stored times are spaced by the cooldown starting from the
    timestamp of [s], and the timestamp of [s'] is the last stored time. *)
Definition throttled (s s' : St) : Prop :=
  exists evs,
    log (snd s') = log (snd s) ++ evs /\
    notification_cooldown (fst s') = notification_cooldown (fst s) /\
    spaced (notification_cooldown (fst s)) (last_notification_time (fst s))
           (fire_times evs) /\
    last_notification_time (fst s')
    = last (fire_times evs) (last_notification_time (fst s)) /\
    alerts evs = List.length (fire_times evs).

(** A box that passes the threshold, is labelled "person" and is a target
    match. *)
Definition qualifying (d : Detector) (box : Box) : Prop :=
  exists name,
    lookup_name (class_names d) (cls box) = Some name /\
    PyStr.lower name = "person"%string /\
    is_target_of (config d) "person" = true /\
    (Config.confidence_threshold (config d) <= conf box)%Q.

(** Events that belong to a fire. *)
Definition is_fire_event (e : Event) : bool :=
  match e with
  | ThreadStart _ | StoreLastNotificationTime _ => true
  | _ => false
  end.

(** The person box of the example. *)
Definition example_person : Box := mkBox 0 (6 # 10) (10, 20, 110, 220)%Z.

(** Within [evs], every start of an alert thread comes after a store of the
    throttle timestamp: the update precedes the dispatch. *)
Definition update_precedes_dispatch (evs : list Event) : Prop :=
  forall pre c post,
    evs = pre ++ ThreadStart c :: post ->
    exists t, In (StoreLastNotificationTime t) pre.

(** ** Prompts *)

(** The console holds an invalid answer to the confidence prompt, and the
    diagnostic printed for it: the prompt is cancelled (end of input or an
    interrupt), the line is not a number, or the number lies outside
    [0, 1] (inf and nan included). *)
Inductive invalid_confidence_input (py_float : string -> option PyFloat)
  : list Typed -> Msg -> Prop :=
| cancelled_by_eof :
    invalid_confidence_input py_float [] MsgCancelledThreshold
| cancelled_by_interrupt rest :
    invalid_confidence_input py_float (CtrlC :: rest) MsgCancelledThreshold
| not_a_number l rest :
    PyStr.truthy (PyStr.strip l) = true ->
    py_float (PyStr.strip l) = None ->
    invalid_confidence_input py_float (Line l :: rest) MsgInvalidInput
| out_of_range l rest q :
    PyStr.truthy (PyStr.strip l) = true ->
    py_float (PyStr.strip l) = Some (Finite q) ->
    ~ (0 <= q /\ q <= 1)%Q ->
    invalid_confidence_input py_float (Line l :: rest) MsgMustBeBetween
| not_finite l rest :
    PyStr.truthy (PyStr.strip l) = true ->
    py_float (PyStr.strip l) = Some NonFinite ->
    invalid_confidence_input py_float (Line l :: rest) MsgMustBeBetween.

(** The world in which [typed] is the next line of the console. *)
Definition typing (typed : string) (w : World) : World :=
  mkWorld (clock w) (clock_reads w) (Line typed :: stdin w) (disk_ok w)
          (log w).

(** The target classes after the target prompt was answered by [typed]. *)
Definition targets_after (typed : string) (d : Detector) (w : World)
  : list string :=
  Config.target_classes
    (config (fst (snd (change_target (d, typing typed w))))).

(** The target prompt as a rule on the raw line: a non-empty line replaces
    the target classes by its comma-separated entries, stripped and
    lowercased, and the empty line keeps them. *)
Definition raw_line_rule : Prop :=
  forall (typed : string) (d : Detector) (w : World),
    (typed <> EmptyString ->
     targets_after typed d w = split_targets typed /\
     split_targets typed <> []) /\
    (typed = EmptyString ->
     targets_after typed d w = Config.target_classes (config d)).

(** A command line that only sets [--confidence 1.5]. *)
Definition example_args_confidence : Args :=
  mkArgs None None (Some (3 # 2)) None.

(** The threshold lies in [0, 1]. *)
Definition threshold_in_range (d : Detector) : Prop :=
  (0 <= Config.confidence_threshold (config d)
   /\ Config.confidence_threshold (config d) <= 1)%Q.

(** ** Key handling *)

(** From [w] to [w'] the log only received console lines. *)
Definition prints_only (w w' : World) : Prop :=
  exists msgs, log w' = log w ++ map Printed msgs.

(** The events are console lines and writes of the configuration. *)
Definition console_or_config (e : Event) : bool :=
  match e with
  | Printed _ | ConfigWritten _ => true
  | _ => false
  end.

(** What one key may do to the detector: nothing, a toggle of [paused] or
    of [show_help], a new threshold of [0, 1], or new target classes read
    from a line. *)
Definition key_change (d d' : Detector) : Prop :=
  d' = d \/
  d' = with_paused (negb (paused d)) d \/
  d' = with_show_help (negb (show_help d)) d \/
  (exists q, (0 <= q /\ q <= 1)%Q /\
             d' = with_config
                    (Config.with_confidence_threshold q (config d)) d) \/
  (exists line,
      d' = with_config
             (Config.with_target_classes (split_targets line) (config d)) d).

(** A property of the configuration that holds after a step if it held
    before. *)
Definition config_kept (P : Config.t -> Prop) (d d' : Detector) : Prop :=
  P (config d) -> P (config d').

(** Every target class is its own lowercase form. *)
Definition targets_lowercase (c : Config.t) : Prop :=
  map PyStr.lower (Config.target_classes c) = Config.target_classes c.

(** The threshold of a configuration lies in [0, 1]. *)
Definition config_in_range (c : Config.t) : Prop :=
  (0 <= Config.confidence_threshold c
   /\ Config.confidence_threshold c <= 1)%Q.

(** ** Alerts within one frame *)

(** The detector is the same and nothing was logged. *)
Definition quiet (s s' : St) : Prop :=
  fst s' = fst s /\ log (snd s') = log (snd s).

(** The condition of line 179 on a box. *)
Definition notify_candidate (d : Detector) (box : Box) : bool :=
  String.eqb (label_of (class_names d) box) "person"
  && is_target_of (config d) (label_of (class_names d) box).

(** The throttle timestamp is a clock reading taken at or after reading
    number [n0]. *)
Definition recent (n0 : nat) (s : St) : Prop :=
  exists n, (n0 <= n < clock_reads (snd s))%nat /\
            last_notification_time (fst s) = clock (snd s) n.

(** For a clock [clk] and a cooldown [C]: a step started at or after
    reading [n0] keeps clock and cooldown, starts at most one alert, and
    none once the timestamp is recent; after an alert the timestamp is
    recent. *)
Definition one_alert (clk : nat -> Q) (C : Q) (n0 : nat) (s s' : St) : Prop :=
  clock (snd s) = clk ->
  notification_cooldown (fst s) = C ->
  (n0 <= clock_reads (snd s))%nat ->
  clock (snd s') = clk /\
  notification_cooldown (fst s') = C /\
  (clock_reads (snd s) <= clock_reads (snd s'))%nat /\
  exists evs,
    log (snd s') = log (snd s) ++ evs /\
    (recent n0 s -> alerts evs = 0%nat /\ recent n0 s') /\
    ((alerts evs = 0%nat /\
      last_notification_time (fst s') = last_notification_time (fst s)) \/
     (alerts evs = 1%nat /\ recent n0 s')).

(** ** The loop around one iteration *)

(** From [s] to [s'] the log was extended by events that all pass [ok]. *)
Definition logs_only (ok : Event -> bool) (s s' : St) : Prop :=
  exists evs,
    log (snd s') = log (snd s) ++ evs /\ forallb ok evs = true.

Definition not_released (e : Event) : bool :=
  match e with
  | Released => false
  | _ => true
  end.

(** ** Rendering and persistence of a frame's detections *)

(** A label agrees with the configuration: the marker is the target test of
    its name, green goes with the marker and blue without it, a label
    without marker needs [show_all_detections], and its confidence passed
    the threshold. *)
Definition label_ok (cfg : Config.t) (op : DrawOp) : Prop :=
  match op with
  | BoxLabel _ colour name c marker =>
      marker = is_target_of cfg name /\
      colour = (if marker then Green else Blue) /\
      (marker = true \/ Config.show_all_detections cfg = true) /\
      (Config.confidence_threshold cfg <= c)%Q
  | Panel _ _ _ _ _ => False
  end.

(** Name, confidence and rectangle of a label. *)
Definition label_core (op : DrawOp) : string * Q * (Z * Z * Z * Z) :=
  match op with
  | BoxLabel rect _ name c _ => (name, c, rect)
  | Panel _ _ _ _ _ => (EmptyString, 0, (0, 0, 0, 0)%Z)
  end.

(** The test of line 185 on a detection. *)
Definition drawn (cfg : Config.t) (det : Detection) : bool :=
  counts_as_target cfg det || Config.show_all_detections cfg.



(** ** Source selection: [discover_ndi_sources], [select_video_source] *)

(** What a capture index delivers when it opens and a frame is read. *)
Record Probe := mkProbe {
  probe_width : Z;
  probe_height : Z;
  probe_fps : Q
}.

(** The console lines of the two functions. *)
Inductive SourceMsg :=
| MsgScanning
| MsgFound (index : Z) (p : Probe)
| MsgNoSourcesHelp
| MsgAvailableSources
| MsgUsingDefault
| MsgSourceLine (position : nat) (index : Z) (p : Probe)
| MsgSelectPrompt (count : nat)
| MsgInvalidChoice
| MsgEnterValidNumber.

(** The loop [for i in range(20)] on the indices still to try: [camera i]
    is [None] when the index does not open, the read fails or an exception
    is raised (and swallowed). *)
Fixpoint scan (camera : Z -> option Probe) (indices : list Z)
  : list (Z * Probe) * list SourceMsg :=
  match indices with
  | [] => ([], [])
  | i :: rest =>
      let '(found, msgs) := scan camera rest in
      match camera i with
      | Some p => ((i, p) :: found, MsgFound i p :: msgs)
      | None => (found, msgs)
      end
  end.

(** [discover_ndi_sources]: the sources found, each the index and what was
    read from it, and the lines printed. *)
Definition discover_ndi_sources (camera : Z -> option Probe)
  : list (Z * Probe) * list SourceMsg :=
  let '(sources, msgs) := scan camera (map Z.of_nat (seq 0 20)) in
  (sources,
   MsgScanning :: msgs
   ++ match sources with [] => [MsgNoSourcesHelp] | _ => [] end).

(** The lines [f"{i}: {source}"]. *)
Fixpoint listing (position : nat) (sources : list (Z * Probe))
  : list SourceMsg :=
  match sources with
  | [] => []
  | (i, p) :: rest => MsgSourceLine position i p :: listing (S position) rest
  end.

(** The loop [while True] of [select_video_source] over the console:
    [count] is [len(sources)], [py_int] is the builtin [int] with [None]
    for [ValueError].  End of input and interrupts are not caught. *)
Fixpoint choose (py_int : string -> option Z) (count : nat)
  (console : list Typed) : Res Z * list Typed * list SourceMsg :=
  match console with
  | [] => (Raise EOFError, [], [MsgSelectPrompt count])
  | CtrlC :: rest => (Raise KeyboardInterrupt, rest, [MsgSelectPrompt count])
  | Line l :: rest =>
      let choice := PyStr.strip l in
      if PyStr.truthy choice then
        match py_int choice with
        | Some c =>
            if ((0 <=? c) && (c <? Z.of_nat count))%Z
            then (Ret c, rest, [MsgSelectPrompt count])
            else
              let '(r, rest', out) := choose py_int count rest in
              (r, rest', MsgSelectPrompt count :: MsgInvalidChoice :: out)
        | None =>
            let '(r, rest', out) := choose py_int count rest in
            (r, rest', MsgSelectPrompt count :: MsgEnterValidNumber :: out)
        end
      else (Ret 0%Z, rest, [MsgSelectPrompt count])
  end.

(** [select_video_source] *)
Definition select_video_source (camera : Z -> option Probe)
  (py_int : string -> option Z) (console : list Typed)
  : Res Z * list Typed * list SourceMsg :=
  let '(sources, msgs) := discover_ndi_sources camera in
  match sources with
  | [] => (Ret 0%Z, console, MsgAvailableSources :: msgs ++ [MsgUsingDefault])
  | _ :: _ =>
      let '(r, rest, out) := choose py_int (List.length sources) console in
      (r, rest, MsgAvailableSources :: msgs ++ listing 0 sources ++ out)
  end.

(** A line the selection loop rejects: not blank, and not an integer of
    [0, count). *)
Definition rejected_choice (py_int : string -> option Z) (count : nat)
  (item : Typed) : Prop :=
  match item with
  | CtrlC => False
  | Line l =>
      PyStr.strip l <> EmptyString /\
      match py_int (PyStr.strip l) with
      | Some c => ~ (0 <= c < Z.of_nat count)%Z
      | None => True
      end
  end.

(** A camera at index 3 only, and an [int] for the lines "0" and "3". *)
Definition example_camera (i : Z) : option Probe :=
  if Z.eqb i 3 then Some (mkProbe 1280 720 30) else None.

Definition example_int (s : string) : option Z :=
  if String.eqb s "0" then Some 0%Z
  else if String.eqb s "3" then Some 3%Z else None.

(** ** Target matching, in the words of the specification *)

(** A label [L] matches the target classes [T] when lowercase([L]) is in
    the set of lowercase([x]) for [x] in [T].  This follows the
    specification, not the code; the code's tests are [is_target_of]
    (line 176) and [counts_as_target] (line 373). *)
Definition target_match (T : list string) (L : string) : Prop :=
  In (PyStr.lower L) (map PyStr.lower T).

Definition target_match_dec (T : list string) (L : string)
  : {target_match T L} + {~ target_match T L} :=
  in_dec string_dec (PyStr.lower L) (map PyStr.lower T).

(** The box carries a class whose name matches the target classes. *)
Definition matching_box (names : list (Z * string)) (T : list string)
  (box : Box) : bool :=
  match lookup_name names (cls box) with
  | Some L => if target_match_dec T L then true else false
  | None => false
  end.

(** The example detector with capitalised class names and an upper-case
    target class. *)
Definition example_detector_mixed_case : Detector :=
  with_model (Some example_net)
             [(0%Z, "Person"%string); (16%Z, "Dog"%string)]
             (with_config
                (Config.with_target_classes ["PERSON"%string]
                                            (config example_detector))
                example_detector).

(** * Properties *)

Unset Implicit Arguments.

(** ** Relations kept by every step of a computation *)

Section Preservation.

Variable R : St -> St -> Prop.
Hypothesis R_refl : forall s, R s s.
Hypothesis R_trans : forall a b c, R a b -> R b c -> R a c.

Lemma preserves_ret A (a : A) : preserves R (ret a).
Proof. intro s; apply R_refl. Qed.

Lemma preserves_raise A (e : Exn) : preserves R (@raise A e).
Proof. intro s; apply R_refl. Qed.

Lemma preserves_get_self : preserves R get_self.
Proof. intro s; apply R_refl. Qed.

Lemma preserves_get_disk_ok : preserves R get_disk_ok.
Proof. intro s; apply R_refl. Qed.

Lemma preserves_bind A B (m : M A) (k : A -> M B) :
  preserves R m -> (forall a, preserves R (k a)) -> preserves R (bind m k).
Proof.
  intros Hm Hk s. unfold bind.
  specialize (Hm s). destruct (m s) as [[a | e] s1]; simpl in *.
  - eapply R_trans; [exact Hm | apply Hk].
  - exact Hm.
Qed.

Lemma preserves_try_except A (m : M A) handled (h : Exn -> M A) :
  preserves R m -> (forall e, preserves R (h e)) ->
  preserves R (try_except m handled h).
Proof.
  intros Hm Hh s. unfold try_except.
  specialize (Hm s). destruct (m s) as [[a | e] s1]; simpl in *.
  - exact Hm.
  - destruct (handled e); simpl; [| exact Hm].
    eapply R_trans; [exact Hm | apply Hh].
Qed.

End Preservation.

(** Relations that only look at the detector: any change of the world keeps
    them. *)
Section DetectorRelation.

Variable RD : Detector -> Detector -> Prop.
Hypothesis RD_refl : forall d, RD d d.
Hypothesis RD_trans : forall a b c, RD a b -> RD b c -> RD a c.

Lemma lift_refl : forall s, lift RD s s.
Proof. intro s; apply RD_refl. Qed.

Lemma lift_trans :
  forall a b c, lift RD a b -> lift RD b c -> lift RD a c.
Proof. unfold lift; intros a b c; apply RD_trans. Qed.

Lemma lift_emit e : preserves (lift RD) (emit e).
Proof. intro s; apply RD_refl. Qed.

Lemma lift_print m : preserves (lift RD) (print m).
Proof. intro s; apply RD_refl. Qed.

Lemma lift_time_time : preserves (lift RD) time_time.
Proof. intro s; apply RD_refl. Qed.

Lemma lift_input p : preserves (lift RD) (input p).
Proof.
  intros [d w]. unfold input, bind, print, emit, lift; simpl.
  destruct (stdin w) as [| [l |] rest]; simpl; apply RD_refl.
Qed.

Lemma lift_set_self f : (forall d, RD d (f d)) -> preserves (lift RD) (set_self f).
Proof. intros Hf [d w]; apply Hf. Qed.

End DetectorRelation.

(** Breaks a computation into its steps; [prim] closes the primitive
    ones. *)
Ltac preserves_steps refl trans prim :=
  repeat first
    [ apply preserves_ret; exact refl
    | apply preserves_raise; exact refl
    | apply preserves_get_self; exact refl
    | apply preserves_get_disk_ok; exact refl
    | progress prim
    | apply preserves_bind; [exact trans | | intro]
    | apply preserves_try_except; [exact trans | | intro]
    | match goal with
      | |- preserves _ (match ?x with _ => _ end) => destruct x
      end ].

(** ** Session statistics *)

Lemma stats_grow_refl : forall d, stats_grow d d.
Proof. intro d; unfold stats_grow; lia. Qed.

Lemma stats_grow_trans :
  forall a b c, stats_grow a b -> stats_grow b c -> stats_grow a c.
Proof. unfold stats_grow; intros a b c; lia. Qed.

Lemma filter_length_le {A} (f : A -> bool) (l : list A) :
  (List.length (filter f l) <= List.length l)%nat.
Proof.
  induction l as [| x l IH]; simpl; [lia |].
  destruct (f x); simpl; lia.
Qed.

Ltac stats_prim :=
  first
    [ apply lift_emit; exact stats_grow_refl
    | apply lift_print; exact stats_grow_refl
    | apply lift_time_time; exact stats_grow_refl
    | apply lift_input; exact stats_grow_refl
    | apply lift_set_self;
      let d := fresh "d" in intro d; unfold stats_grow; simpl; lia ].

Ltac stats_steps_with known :=
  preserves_steps (lift_refl stats_grow stats_grow_refl)
                  (lift_trans stats_grow stats_grow_trans)
                  ltac:(first [stats_prim | known]).

Ltac stats_steps := stats_steps_with fail.

Lemma update_stats_grow detections :
  preserves (lift stats_grow) (update_stats detections).
Proof.
  intros [d w]. unfold update_stats, bind, get_self, set_self, lift; simpl.
  pose proof (filter_length_le (counts_as_target (config d)) detections).
  unfold stats_grow; simpl; lia.
Qed.

Lemma process_box_grow box acc :
  preserves (lift stats_grow) (process_box box acc).
Proof.
  unfold process_box, show_notification. destruct acc as [frame detections].
  stats_steps.
Qed.

Lemma process_boxes_grow boxes :
  forall acc, preserves (lift stats_grow) (process_boxes boxes acc).
Proof.
  induction boxes as [| box rest IH]; intro acc; simpl.
  - stats_steps.
  - stats_steps_with ltac:(first [apply process_box_grow | apply IH]).
Qed.

Lemma process_frame_grow frame :
  preserves (lift stats_grow) (process_frame frame).
Proof.
  unfold process_frame.
  stats_steps_with ltac:(apply process_boxes_grow).
Qed.

Lemma handle_keyboard_input_grow py_float key :
  preserves (lift stats_grow) (handle_keyboard_input py_float key).
Proof.
  unfold handle_keyboard_input, change_confidence, change_target,
    save_config, float.
  stats_steps.
Qed.

Lemma tick_grow py_float i : preserves (lift stats_grow) (tick py_float i).
Proof.
  unfold tick, process_and_count, show_and_poll, save_detections,
    draw_ui_overlay.
  stats_steps_with
    ltac:(first [ apply process_frame_grow | apply update_stats_grow
                | apply handle_keyboard_input_grow ]).
Qed.

Lemma while_true_grow py_float inputs :
  preserves (lift stats_grow) (while_true py_float inputs).
Proof.
  induction inputs as [| i rest IH]; simpl.
  - stats_steps.
  - stats_steps_with ltac:(first [apply tick_grow | apply IH]).
Qed.

(** ** Frame processing *)

Lemma same_but_throttle_refl : forall d, same_but_throttle d d.
Proof. intro d; unfold same_but_throttle; tauto. Qed.

Lemma same_but_throttle_trans :
  forall a b c,
    same_but_throttle a b -> same_but_throttle b c -> same_but_throttle a c.
Proof.
  unfold same_but_throttle; intros a b c H1 H2.
  decompose [and] H1; decompose [and] H2; repeat split; congruence.
Qed.

Ltac throttle_only_steps_with known :=
  preserves_steps
    (lift_refl same_but_throttle same_but_throttle_refl)
    (lift_trans same_but_throttle same_but_throttle_trans)
    ltac:(first
            [ apply lift_emit; exact same_but_throttle_refl
            | apply lift_time_time; exact same_but_throttle_refl
            | apply lift_set_self;
              let d := fresh "d" in
              intro d; unfold same_but_throttle; simpl; tauto
            | known ]).

Lemma process_box_throttle_only box acc :
  preserves (lift same_but_throttle) (process_box box acc).
Proof.
  unfold process_box, show_notification. destruct acc as [frame detections].
  throttle_only_steps_with fail.
Qed.

Lemma process_boxes_throttle_only boxes :
  forall acc, preserves (lift same_but_throttle) (process_boxes boxes acc).
Proof.
  induction boxes as [| box rest IH]; intro acc; simpl.
  - throttle_only_steps_with fail.
  - throttle_only_steps_with
      ltac:(first [apply process_box_throttle_only | apply IH]).
Qed.

Lemma process_frame_throttle_only frame :
  preserves (lift same_but_throttle) (process_frame frame).
Proof.
  unfold process_frame.
  throttle_only_steps_with ltac:(apply process_boxes_throttle_only).
Qed.

(** What one box adds to the accumulator. *)
Lemma process_box_result box frame detections d w name :
  lookup_name (class_names d) (cls box) = Some name ->
  exists ts s',
    process_box box (frame, detections) (d, w) =
    (Ret (if kept (config d) box
          then
            (if is_target_of (config d) (PyStr.lower name)
                || Config.show_all_detections (config d)
             then draw (BoxLabel (xyxy box)
                                 (if is_target_of (config d) (PyStr.lower name)
                                  then Green else Blue)
                                 (PyStr.lower name) (conf box)
                                 (is_target_of (config d) (PyStr.lower name)))
                       frame
             else frame,
             detections
             ++ [mkDetection (PyStr.lower name) (conf box) (xyxy box) ts])
          else (frame, detections)),
     s').
Proof.
  intro Hname. unfold process_box, kept, bind, get_self; simpl.
  rewrite Hname.
  destruct (Qle_bool (Config.confidence_threshold (config d)) (conf box));
    [| eexists 0, _; reflexivity].
  simpl.
  destruct ((PyStr.lower name =? "person")%string
            && is_target_of (config d) (PyStr.lower name)); simpl.
  - destruct (Qle_bool (notification_cooldown d)
                (clock w (S (clock_reads w)) - last_notification_time d));
      simpl; eexists _, _; reflexivity.
  - eexists _, _; reflexivity.
Qed.

Lemma target_marks_draw op f :
  target_marks (draw op f)
  = (target_marks f + (if is_target_mark op then 1 else 0))%nat.
Proof.
  unfold target_marks, draw; simpl.
  rewrite filter_app, length_app; simpl.
  destruct (is_target_mark op); reflexivity.
Qed.

Lemma label_of_resolved names box name :
  lookup_name names (cls box) = Some name ->
  label_of names box = PyStr.lower name.
Proof. intro H; unfold label_of; rewrite H; reflexivity. Qed.

Lemma process_boxes_cons box rest acc s :
  process_boxes (box :: rest) acc s
  = match process_box box acc s with
    | (Ret acc', s') => process_boxes rest acc' s'
    | (Raise e, s') => (Raise e, s')
    end.
Proof. reflexivity. Qed.

(** What the boxes of a frame add to the accumulator: the kept boxes in
    order, and one target mark for each detection that the statistics will
    count as a target. *)
Lemma process_boxes_result boxes :
  forall frame detections d w,
    Forall (resolvable (class_names d)) boxes ->
    exists frame' added s',
      process_boxes boxes (frame, detections) (d, w)
      = (Ret (frame', detections ++ added), s') /\
      map core added
      = map (box_core (class_names d)) (filter (kept (config d)) boxes) /\
      target_marks frame'
      = (target_marks frame
         + List.length (filter (counts_as_target (config d)) added))%nat /\
      pixels frame' = pixels frame.
Proof.
  induction boxes as [| box rest IH]; intros frame detections d w Hres.
  - exists frame, [], (d, w). simpl. rewrite app_nil_r.
    repeat split; lia.
  - inversion Hres as [| ? ? Hbox Hrest]; subst.
    destruct (lookup_name (class_names d) (cls box)) as [name |] eqn:Hname;
      [| contradiction].
    destruct (process_box_result box frame detections d w name Hname)
      as (ts & s1 & Hstep).
    pose proof (process_box_throttle_only box (frame, detections) (d, w))
      as Hsame.
    rewrite Hstep in Hsame. destruct s1 as [d1 w1].
    unfold lift in Hsame; simpl in Hsame.
    destruct Hsame as (_ & Hnames & Hcfg & _).
    rewrite process_boxes_cons, Hstep.
    simpl filter.
    destruct (kept (config d) box) eqn:Hkept.
    + rewrite <- Hnames in Hrest.
      destruct (IH (if is_target_of (config d) (PyStr.lower name)
                       || Config.show_all_detections (config d)
                    then draw (BoxLabel (xyxy box)
                                 (if is_target_of (config d) (PyStr.lower name)
                                  then Green else Blue)
                                 (PyStr.lower name) (conf box)
                                 (is_target_of (config d) (PyStr.lower name)))
                              frame
                    else frame)
                   (detections
                    ++ [mkDetection (PyStr.lower name) (conf box)
                                    (xyxy box) ts])
                   d1 w1 Hrest)
        as (frame' & added & s' & Heq & Hcore & Hmarks & Hpix).
      rewrite Hnames, Hcfg in *.
      exists frame',
        (mkDetection (PyStr.lower name) (conf box) (xyxy box) ts :: added),
        s'.
      split; [rewrite Heq, <- app_assoc; reflexivity |].
      split.
      { simpl map. rewrite Hcore. f_equal.
        unfold core, box_core; simpl.
        rewrite (label_of_resolved _ _ _ Hname). reflexivity. }
      split.
      { rewrite Hmarks. simpl filter.
        change (counts_as_target (config d)
                  (mkDetection (PyStr.lower name) (conf box) (xyxy box) ts))
          with (is_target_of (config d) (PyStr.lower name)).
        destruct (is_target_of (config d) (PyStr.lower name)); simpl.
        - rewrite target_marks_draw; simpl. lia.
        - destruct (Config.show_all_detections (config d));
            [rewrite target_marks_draw; simpl |]; lia. }
      { rewrite Hpix.
        destruct (is_target_of (config d) (PyStr.lower name)
                  || Config.show_all_detections (config d)); reflexivity. }
    + rewrite <- Hnames in Hrest.
      destruct (IH frame detections d1 w1 Hrest)
        as (frame' & added & s' & Heq & Hcore & Hmarks & Hpix).
      rewrite Hnames, Hcfg in *.
      exists frame', added, s'. auto.
Qed.

Lemma bind_Ret {A B} {m : M A} (k : A -> M B) {s a s'} :
  m s = (Ret a, s') -> bind m k s = k a s'.
Proof. intro H; unfold bind; rewrite H; reflexivity. Qed.

Lemma process_frame_result d w frame net :
  model d = Some net ->
  Forall (resolvable (class_names d)) (net frame) ->
  exists frame' detections s',
    process_frame frame (d, w) = (Ret (frame', detections), s') /\
    map core detections
    = map (box_core (class_names d)) (filter (kept (config d)) (net frame)) /\
    target_marks frame'
    = (target_marks frame
       + List.length (filter (counts_as_target (config d)) detections))%nat /\
    same_but_throttle d (fst s').
Proof.
  intros Hmodel Hres.
  destruct (process_boxes_result (net frame) frame [] d w Hres)
    as (frame' & added & s' & Heq & Hcore & Hmarks & _).
  exists frame', added, s'.
  assert (Hpf : process_frame frame (d, w) = (Ret (frame', added), s')).
  { unfold process_frame.
    rewrite (bind_Ret _ (eq_refl : get_self (d, w) = (Ret d, (d, w)))).
    rewrite Hmodel. exact Heq. }
  repeat split; try assumption.
  all: pose proof (process_frame_throttle_only frame (d, w)) as Hsame;
    rewrite Hpf in Hsame; apply Hsame.
Qed.

Lemma update_stats_result detections d w :
  exists d',
    update_stats detections (d, w) = (Ret tt, (d', w)) /\
    detection_stats d'
    = mkStats (total_detections (detection_stats d)
               + Z.of_nat (List.length detections))
              (target_detections (detection_stats d)
               + Z.of_nat (List.length
                             (filter (counts_as_target (config d))
                                     detections))) /\
    config d' = config d.
Proof.
  unfold update_stats, bind, get_self, set_self; simpl.
  eexists; split; [reflexivity | split; reflexivity].
Qed.

(** No detection dictionary is encodable: its "bbox" holds numpy
    integers. *)
Lemma as_dict_not_encodable det : json_encodable (as_dict det) = false.
Proof.
  unfold as_dict. destruct (bbox det) as [[[x1 y1] x2] y2]. reflexivity.
Qed.

(** The write loop stops at its first detection, with nothing written. *)
Lemma write_records_cons det rest :
  write_records (det :: rest) = ([], false).
Proof. simpl. rewrite as_dict_not_encodable. reflexivity. Qed.

(** [save_detections] on any state: the error line when the [try] block
    is entered, nothing otherwise. *)
Lemma save_detections_eq detections d w :
  save_detections detections (d, w)
  = if Config.save_detections (config d)
       && match detections with [] => false | _ :: _ => true end
    then print MsgErrorSavingDetections (d, w)
    else (Ret tt, (d, w)).
Proof.
  unfold save_detections, bind, get_self, get_disk_ok. simpl.
  destruct (Config.save_detections (config d)); simpl; [| reflexivity].
  destruct detections as [| det rest]; simpl; [reflexivity |].
  destruct (disk_ok w); [| reflexivity].
  change (if json_encodable (as_dict det)
          then let '(written, finished) := write_records rest in
               (det :: written, finished)
          else ([], false))
    with (write_records (det :: rest)).
  rewrite write_records_cons. reflexivity.
Qed.

Lemma save_detections_result detections s :
  exists s', save_detections detections s = (Ret tt, s') /\ fst s' = fst s.
Proof.
  destruct s as [d w]. rewrite save_detections_eq.
  destruct (Config.save_detections (config d)
            && match detections with [] => false | _ :: _ => true end);
    eexists; split; reflexivity.
Qed.

(** The running branch on a frame whose boxes all resolve. *)
Lemma process_and_count_result d w frame net :
  model d = Some net ->
  Forall (resolvable (class_names d)) (net frame) ->
  exists frame' detections s',
    process_and_count frame (d, w) = (Ret (Some frame'), s') /\
    map core detections
    = map (box_core (class_names d)) (filter (kept (config d)) (net frame)) /\
    target_marks frame'
    = (target_marks frame
       + List.length (filter (counts_as_target (config d)) detections))%nat /\
    detection_stats (fst s')
    = mkStats (total_detections (detection_stats d)
               + Z.of_nat (List.length detections))
              (target_detections (detection_stats d)
               + Z.of_nat (List.length
                             (filter (counts_as_target (config d))
                                     detections))) /\
    config (fst s') = config d.
Proof.
  intros Hmodel Hres.
  destruct (process_frame_result d w frame net Hmodel Hres)
    as (frame' & detections & [d1 w1] & Hpf & Hcore & Hmarks & Hsame).
  destruct Hsame as (_ & _ & Hcfg & Hstats & _); simpl in Hcfg, Hstats.
  destruct (update_stats_result detections d1 w1) as (d2 & Hup & Hst2 & Hcfg2).
  destruct (save_detections_result detections (d2, w1))
    as ([d3 w3] & Hsave & Hfst); simpl in Hfst; subst d3.
  exists frame', detections, (d2, w3).
  split.
  { unfold process_and_count.
    rewrite (bind_Ret _ Hpf), (bind_Ret _ Hup), (bind_Ret _ Hsave).
    reflexivity. }
  rewrite Hcfg, Hstats in Hst2. simpl. rewrite Hcfg2, Hcfg. auto.
Qed.

Lemma keeps_refl {X} (field : Detector -> X) : forall d, keeps field d d.
Proof. reflexivity. Qed.

Lemma keeps_trans {X} (field : Detector -> X) :
  forall a b c, keeps field a b -> keeps field b c -> keeps field a c.
Proof. unfold keeps; intros; congruence. Qed.

(** Steps that leave one field of the detector alone; [simpl] must see it
    through the setters. *)
Ltac keeps_steps_with field known :=
  preserves_steps
    (lift_refl (keeps field) (keeps_refl field))
    (lift_trans (keeps field) (keeps_trans field))
    ltac:(first
            [ apply lift_emit; exact (keeps_refl field)
            | apply lift_print; exact (keeps_refl field)
            | apply lift_time_time; exact (keeps_refl field)
            | apply lift_input; exact (keeps_refl field)
            | apply lift_set_self;
              let d := fresh "d" in intro d; reflexivity
            | known ]).

Lemma handle_keyboard_input_keeps_stats py_float key :
  preserves (lift (keeps detection_stats))
            (handle_keyboard_input py_float key).
Proof.
  unfold handle_keyboard_input, change_confidence, change_target,
    save_config, float.
  keeps_steps_with detection_stats fail.
Qed.

Lemma show_and_poll_keeps_stats py_float key_code frame :
  preserves (lift (keeps detection_stats))
            (show_and_poll py_float key_code frame).
Proof.
  unfold show_and_poll, draw_ui_overlay.
  keeps_steps_with detection_stats
    ltac:(apply handle_keyboard_input_keeps_stats).
Qed.

(** The counters after a running iteration on a frame whose boxes all
    resolve: the kept boxes are added to the total, those of a target class
    to the target counter. *)
Lemma tick_stats py_float i d w frame net :
  paused d = false ->
  cap_read i = Some frame ->
  model d = Some net ->
  Forall (resolvable (class_names d)) (net frame) ->
  exists detections,
    map core detections
    = map (box_core (class_names d)) (filter (kept (config d)) (net frame)) /\
    detection_stats (fst (snd (tick py_float i (d, w))))
    = mkStats (total_detections (detection_stats d)
               + Z.of_nat (List.length detections))
              (target_detections (detection_stats d)
               + Z.of_nat (List.length
                             (filter (counts_as_target (config d))
                                     detections))).
Proof.
  intros Hrun Hread Hmodel Hres.
  destruct (process_and_count_result d w frame net Hmodel Hres)
    as (frame' & detections & s1 & Hpc & Hcore & _ & Hstats & _).
  exists detections. split; [exact Hcore |].
  unfold tick.
  rewrite (bind_Ret _ (eq_refl : get_self (d, w) = (Ret d, (d, w)))).
  rewrite Hrun, Hread. simpl negb. cbv iota.
  rewrite (bind_Ret _ Hpc).
  rewrite <- Hstats.
  apply (show_and_poll_keeps_stats py_float (wait_key i) frame' s1).
Qed.

(** ** The claims on filtering, classification and statistics *)

(** C3.  A raw detection is kept exactly when its confidence is at least the
    threshold, the bound included: on a frame whose class ids all resolve,
    [process_frame] returns the kept boxes in order, and a box of the frame
    is among the detections if and only if [threshold <= conf]. *)
Theorem C3_confidence_filter_inclusive :
  forall (d : Detector) (w : World) (frame : Frame) (net : Frame -> list Box),
    model d = Some net ->
    Forall (resolvable (class_names d)) (net frame) ->
    exists frame' detections s',
      process_frame frame (d, w) = (Ret (frame', detections), s') /\
      map core detections
      = map (box_core (class_names d))
            (filter (kept (config d)) (net frame)) /\
      (forall box,
          In box (net frame) ->
          (In (box_core (class_names d) box) (map core detections) <->
           (Config.confidence_threshold (config d) <= conf box)%Q)) /\
      (forall box,
          In box (net frame) ->
          (conf box == Config.confidence_threshold (config d))%Q ->
          In (box_core (class_names d) box) (map core detections)).
Proof.
  intros d w frame net Hmodel Hres.
  destruct (process_frame_result d w frame net Hmodel Hres)
    as (frame' & detections & s' & Hpf & Hcore & _ & _).
  exists frame', detections, s'.
  assert (Hiff : forall box,
             In box (net frame) ->
             (In (box_core (class_names d) box) (map core detections) <->
              (Config.confidence_threshold (config d) <= conf box)%Q)).
  { intros box Hin. rewrite Hcore. split.
    - intro H. apply in_map_iff in H. destruct H as (box' & Heq & Hin').
      apply filter_In in Hin'. destruct Hin' as [_ Hkept].
      unfold kept in Hkept. apply Qle_bool_iff in Hkept.
      unfold box_core in Heq. injection Heq as _ Hconf _.
      rewrite <- Hconf. exact Hkept.
    - intro Hle. apply in_map. apply filter_In. split; [exact Hin |].
      unfold kept. apply Qle_bool_iff. exact Hle. }
  repeat split; try assumption.
  - apply Hiff; assumption.
  - apply Hiff; assumption.
  - intros box Hin Heq. apply Hiff; [exact Hin |].
    rewrite Heq. apply Qle_refl.
Qed.

Lemma C3_confidence_filter_inclusive_witness :
  model example_detector = Some example_net /\
  Forall (resolvable (class_names example_detector))
         (example_net blank_frame) /\
  exists frame' detections s',
    process_frame blank_frame (example_detector, example_world)
    = (Ret (frame', detections), s') /\
    map core detections
    = map (box_core (class_names example_detector))
          (filter (kept (config example_detector))
                  (example_net blank_frame)) /\
    (forall box,
        In box (example_net blank_frame) ->
        (In (box_core (class_names example_detector) box)
            (map core detections) <->
         (Config.confidence_threshold (config example_detector)
          <= conf box)%Q)) /\
    (forall box,
        In box (example_net blank_frame) ->
        (conf box == Config.confidence_threshold (config example_detector))%Q ->
        In (box_core (class_names example_detector) box)
           (map core detections)).
Proof.
  assert (H1 : model example_detector = Some example_net) by reflexivity.
  assert (H2 : Forall (resolvable (class_names example_detector))
                      (example_net blank_frame))
    by (repeat constructor; discriminate).
  split; [exact H1 | split; [exact H2 |]].
  exact (C3_confidence_filter_inclusive example_detector example_world
           blank_frame example_net H1 H2).
Defined.

(** C10.  Without a model, [process_frame] returns the frame it was given
    and no detection, and neither the detector nor the world changes. *)
Theorem C10_no_model_is_identity :
  forall (d : Detector) (w : World) (frame : Frame),
    model d = None ->
    process_frame frame (d, w) = (Ret (frame, []), (d, w)).
Proof.
  intros d w frame Hnone. unfold process_frame.
  rewrite (bind_Ret _ (eq_refl : get_self (d, w) = (Ret d, (d, w)))).
  rewrite Hnone. reflexivity.
Qed.

Lemma C10_no_model_is_identity_witness :
  model (fst (init Missing example_world)) = None /\
  process_frame blank_frame (init Missing example_world)
  = (Ret (blank_frame, []), init Missing example_world).
Proof.
  split; [reflexivity |].
  exact (C10_no_model_is_identity (fst (init Missing example_world))
           (snd (init Missing example_world)) blank_frame eq_refl).
Defined.

Lemma is_target_of_In cfg x :
  is_target_of cfg x = true <->
  In x (map PyStr.lower (Config.target_classes cfg)).
Proof.
  unfold is_target_of, PyStr.py_in. rewrite existsb_exists. split.
  - intros (y & Hin & Heq). apply String.eqb_eq in Heq. subst y. exact Hin.
  - intro Hin. exists x. split; [exact Hin | apply String.eqb_refl].
Qed.

Lemma counts_as_target_match cfg det L :
  class det = PyStr.lower L ->
  counts_as_target cfg det = true <->
  target_match (Config.target_classes cfg) L.
Proof.
  intro Hclass. unfold counts_as_target, target_match. rewrite Hclass.
  apply (is_target_of_In cfg (PyStr.lower L)).
Qed.

(** The detections counted as targets at line 373 are as many as the kept
    boxes whose class name matches. *)
Lemma count_matching cfg names :
  forall detections boxes,
    Forall (resolvable names) boxes ->
    map core detections = map (box_core names) boxes ->
    List.length (filter (counts_as_target cfg) detections)
    = List.length
        (filter (matching_box names (Config.target_classes cfg)) boxes).
Proof.
  induction detections as [| det rest IH]; intros [| box boxes] Hres Hcore;
    try discriminate; [reflexivity |].
  inversion Hres as [| ? ? Hbox Hrest]; subst.
  simpl in Hcore. unfold core at 1, box_core at 1, label_of in Hcore.
  unfold resolvable in Hbox.
  simpl. unfold matching_box at 1.
  destruct (lookup_name names (cls box)) as [L |]; [| contradiction].
  injection Hcore as Hclass _ _ Htail.
  pose proof (counts_as_target_match cfg det L Hclass) as Hiff.
  destruct (target_match_dec (Config.target_classes cfg) L) as [Hm | Hm].
  - apply Hiff in Hm. rewrite Hm. simpl. f_equal. apply IH; assumption.
  - destruct (counts_as_target cfg det).
    + exfalso. apply Hm, Hiff. reflexivity.
    + apply IH; assumption.
Qed.

Lemma kept_resolvable names cfg boxes :
  Forall (resolvable names) boxes ->
  Forall (resolvable names) (filter (kept cfg) boxes).
Proof.
  rewrite !Forall_forall. intros H box Hin.
  apply filter_In in Hin. apply H, Hin.
Qed.

(** C4.  For every list of target classes [T] and every class name [L], the
    running code classifies a kept detection of class [L] as a target
    exactly when lowercase([L]) is among the lowercase entries of [T]:
    [process_frame] draws it in green with the target marker in that case
    and never otherwise, and the test of line 373 holds of its dictionary
    in that case only; one running iteration adds the number of kept boxes
    to the total counter and the number of matching kept boxes to the
    target counter.  With no target class nothing matches: the target
    counter stays, no label gets the marker, and every kept box still
    counts in the total. *)
Theorem C4_target_match_lowercase_membership :
  (forall (d : Detector) (w : World) (box : Box) (frame : Frame)
          (detections : list Detection) (L : string),
      lookup_name (class_names d) (cls box) = Some L ->
      kept (config d) box = true ->
      exists frame' ts s',
        process_box box (frame, detections) (d, w)
        = (Ret (frame',
                detections
                ++ [mkDetection (PyStr.lower L) (conf box) (xyxy box) ts]),
           s') /\
        (target_match (Config.target_classes (config d)) L ->
         overlay frame'
         = overlay frame
           ++ [BoxLabel (xyxy box) Green (PyStr.lower L) (conf box) true]) /\
        (~ target_match (Config.target_classes (config d)) L ->
         overlay frame'
         = overlay frame
           ++ (if Config.show_all_detections (config d)
               then [BoxLabel (xyxy box) Blue (PyStr.lower L) (conf box)
                              false]
               else [])) /\
        (counts_as_target
           (config d)
           (mkDetection (PyStr.lower L) (conf box) (xyxy box) ts) = true
         <-> target_match (Config.target_classes (config d)) L)) /\
  (forall py_float (i : TickInput) (d : Detector) (w : World)
          (frame : Frame) (net : Frame -> list Box),
      paused d = false ->
      cap_read i = Some frame ->
      model d = Some net ->
      Forall (resolvable (class_names d)) (net frame) ->
      let kept_boxes := filter (kept (config d)) (net frame) in
      let matching :=
        filter (matching_box (class_names d)
                             (Config.target_classes (config d)))
               kept_boxes in
      let after := detection_stats (fst (snd (tick py_float i (d, w)))) in
      (exists frame' detections s',
          process_frame frame (d, w) = (Ret (frame', detections), s') /\
          List.length detections = List.length kept_boxes /\
          target_marks frame'
          = (target_marks frame + List.length matching)%nat) /\
      total_detections after
      = (total_detections (detection_stats d)
         + Z.of_nat (List.length kept_boxes))%Z /\
      target_detections after
      = (target_detections (detection_stats d)
         + Z.of_nat (List.length matching))%Z /\
      (Config.target_classes (config d) = [] ->
       matching = [] /\
       target_detections after = target_detections (detection_stats d))) /\
  (forall L : string, ~ target_match [] L).
Proof.
  split; [| split].
  - intros d w box frame detections L Hname Hkept.
    destruct (process_box_result box frame detections d w L Hname)
      as (ts & s' & Hstep).
    rewrite Hkept in Hstep.
    pose proof (is_target_of_In (config d) (PyStr.lower L)) as Hiff.
    fold (target_match (Config.target_classes (config d)) L) in Hiff.
    assert (Hcount : counts_as_target
                       (config d)
                       (mkDetection (PyStr.lower L) (conf box) (xyxy box) ts)
                     = true
                     <-> target_match (Config.target_classes (config d)) L)
      by (apply counts_as_target_match; reflexivity).
    destruct (is_target_of (config d) (PyStr.lower L)) eqn:Ht.
    + simpl in Hstep. eexists _, ts, s'.
      split; [exact Hstep |].
      split; [intros _; reflexivity |].
      split; [| exact Hcount].
      intro Hno. exfalso. apply Hno, Hiff. reflexivity.
    + simpl in Hstep. eexists _, ts, s'.
      split; [exact Hstep |].
      split.
      { intro Hyes. apply Hiff in Hyes. discriminate. }
      split; [| exact Hcount].
      intros _.
      destruct (Config.show_all_detections (config d)); simpl;
        [reflexivity | rewrite app_nil_r; reflexivity].
  - intros py_float i d w frame net Hrun Hread Hmodel Hres
           kept_boxes matching after.
    pose proof (kept_resolvable (class_names d) (config d) (net frame) Hres)
      as Hres'.
    assert (Htotal_and_target :
              total_detections after
              = (total_detections (detection_stats d)
                 + Z.of_nat (List.length kept_boxes))%Z /\
              target_detections after
              = (target_detections (detection_stats d)
                 + Z.of_nat (List.length matching))%Z).
    { destruct (tick_stats py_float i d w frame net Hrun Hread Hmodel Hres)
        as (detections & Hcore & Hstats).
      subst after. rewrite Hstats. simpl.
      rewrite (count_matching (config d) (class_names d) detections
                 (filter (kept (config d)) (net frame)) Hres' Hcore).
      rewrite <- (length_map core detections), Hcore, length_map.
      split; reflexivity. }
    destruct Htotal_and_target as [Htotal Htarget].
    split.
    { destruct (process_frame_result d w frame net Hmodel Hres)
        as (frame' & detections & s' & Hpf & Hcore & Hmarks & _).
      exists frame', detections, s'.
      split; [exact Hpf |]. split.
      - rewrite <- (length_map core detections), Hcore, length_map.
        reflexivity.
      - rewrite Hmarks.
        rewrite (count_matching (config d) (class_names d) detections
                   (filter (kept (config d)) (net frame)) Hres' Hcore).
        reflexivity. }
    split; [exact Htotal |]. split; [exact Htarget |].
    intro Hempty.
    assert (Hnone : matching = []).
    { subst matching. rewrite Hempty. clear.
      induction kept_boxes as [| box rest IH]; [reflexivity |].
      simpl. unfold matching_box at 1.
      destruct (lookup_name (class_names d) (cls box)) as [L |];
        [| exact IH].
      destruct (target_match_dec [] L) as [Hm | _]; [destruct Hm | exact IH]. }
    split; [exact Hnone |].
    rewrite Htarget, Hnone. simpl. lia.
  - intros L H. exact H.
Qed.

Lemma C4_target_match_lowercase_membership_witness :
  (exists ts,
      fst (process_box example_person (blank_frame, [])
             (example_detector_mixed_case, example_world))
      = Ret (mkFrame []
               [BoxLabel (10, 20, 110, 220)%Z Green "person" (6 # 10) true],
             [mkDetection "person" (6 # 10) (10, 20, 110, 220)%Z ts])) /\
  detection_stats
    (fst (snd (tick decimal_float example_tick
                    (example_detector_mixed_case, example_world))))
  = mkStats 2 1 /\
  detection_stats
    (fst (snd (tick decimal_float example_tick
                    (example_detector_no_targets, example_world))))
  = mkStats 2 0.
Proof.
  destruct C4_target_match_lowercase_membership as (Hbox & Htick & _).
  split; [| split].
  - destruct (Hbox example_detector_mixed_case example_world example_person
                   blank_frame [] "Person"%string eq_refl eq_refl)
      as (frame' & ts & s' & Hstep & Hyes & _).
    exists ts. rewrite Hstep. simpl.
    assert (Hov : overlay frame'
                  = [BoxLabel (10, 20, 110, 220)%Z Green "person" (6 # 10)
                              true])
      by (apply Hyes; left; reflexivity).
    assert (Hpx : pixels frame' = []).
    { pose proof (f_equal (fun r => match fst r with
                                    | Ret (f, _) => pixels f
                                    | Raise _ => []
                                    end) Hstep) as H.
      simpl in H. symmetry. exact H. }
    destruct frame' as [px ov]. simpl in Hov, Hpx. subst. reflexivity.
  - assert (Hres : Forall (resolvable
                             (class_names example_detector_mixed_case))
                          (example_net blank_frame))
      by (repeat constructor; discriminate).
    destruct (Htick decimal_float example_tick example_detector_mixed_case
                    example_world blank_frame example_net
                    eq_refl eq_refl eq_refl Hres)
      as (_ & Htot & Htar & _).
    destruct (detection_stats
                (fst (snd (tick decimal_float example_tick
                             (example_detector_mixed_case, example_world)))))
      as [tot tar].
    simpl in Htot, Htar. rewrite Htot, Htar. reflexivity.
  - assert (Hres : Forall (resolvable
                             (class_names example_detector_no_targets))
                          (example_net blank_frame))
      by (repeat constructor; discriminate).
    destruct (Htick decimal_float example_tick example_detector_no_targets
                    example_world blank_frame example_net
                    eq_refl eq_refl eq_refl Hres)
      as (_ & Htot & _ & Hempty).
    destruct (Hempty eq_refl) as [_ Htar].
    destruct (detection_stats
                (fst (snd (tick decimal_float example_tick
                             (example_detector_no_targets, example_world)))))
      as [tot tar].
    simpl in Htot, Htar. rewrite Htot, Htar. reflexivity.
Defined.

(** C5.  Over any iterations of a session both counters only grow, the
    target counter never by more than the total one; in a session of the
    detector built by [main], its model loaded, the target counter
    therefore never exceeds the total, whatever the world at the start of
    the loop. *)
Theorem C5_session_stats_monotone :
  (forall py_float (inputs : list TickInput) (s : St),
      let before := detection_stats (fst s) in
      let after :=
        detection_stats (fst (snd (while_true py_float inputs s))) in
      (total_detections before <= total_detections after)%Z /\
      (target_detections before <= target_detections after)%Z /\
      (target_detections after - target_detections before
       <= total_detections after - total_detections before)%Z) /\
  (forall py_float (args : Args) (file : ConfigFile) (w : World) yolo
          (w_loop : World) (inputs : list TickInput),
      let built := main_detector args file w in
      let loaded :=
        fst (snd (load_model (Config.model_path (config (fst built))) yolo
                             built)) in
      let after :=
        detection_stats
          (fst (snd (while_true py_float inputs (loaded, w_loop)))) in
      (0 <= target_detections after <= total_detections after)%Z).
Proof.
  split.
  - intros py_float inputs s. exact (while_true_grow py_float inputs s).
  - intros py_float args file w yolo w_loop inputs built loaded after.
    pose proof (while_true_grow py_float inputs (loaded, w_loop)) as H.
    unfold lift, stats_grow in H. fold after in H. cbn [fst] in H.
    assert (Hzero : detection_stats loaded = mkStats 0 0).
    { subst loaded built. unfold main_detector, init, load_model.
      destruct (load_config file w) as [cfg w'].
      destruct (yolo _) as [[net names] |]; reflexivity. }
    rewrite Hzero in H. simpl in H. lia.
Qed.

(** C7.  In one iteration the test that marks and notifies a detection
    (line 176) and the test that counts it (line 373) agree: the
    configuration is the same at both points, every detection gets the same
    answer from both, and the frame carries one target mark for each
    detection the statistics count as a target. *)
Theorem C7_target_tests_agree :
  forall (d : Detector) (w : World) (frame : Frame) (net : Frame -> list Box),
    model d = Some net ->
    Forall (resolvable (class_names d)) (net frame) ->
    exists frame' detections s',
      process_frame frame (d, w) = (Ret (frame', detections), s') /\
      config (fst s') = config d /\
      (forall det,
          In det detections ->
          counts_as_target (config (fst s')) det
          = is_target_of (config d) (class det)) /\
      target_marks frame'
      = (target_marks frame
         + List.length (filter (counts_as_target (config (fst s')))
                               detections))%nat.
Proof.
  intros d w frame net Hmodel Hres.
  destruct (process_frame_result d w frame net Hmodel Hres)
    as (frame' & detections & s' & Hpf & _ & Hmarks & Hsame).
  destruct Hsame as (_ & _ & Hcfg & _).
  exists frame', detections, s'. rewrite Hcfg.
  repeat split; auto.
Qed.

Lemma C7_target_tests_agree_witness :
  model example_detector = Some example_net /\
  Forall (resolvable (class_names example_detector))
         (example_net blank_frame) /\
  exists frame' detections s',
    process_frame blank_frame (example_detector, example_world)
    = (Ret (frame', detections), s') /\
    config (fst s') = config example_detector /\
    (forall det,
        In det detections ->
        counts_as_target (config (fst s')) det
        = is_target_of (config example_detector) (class det)) /\
    target_marks frame'
    = (target_marks blank_frame
       + List.length (filter (counts_as_target (config (fst s')))
                             detections))%nat.
Proof.
  assert (H1 : model example_detector = Some example_net) by reflexivity.
  assert (H2 : Forall (resolvable (class_names example_detector))
                      (example_net blank_frame))
    by (repeat constructor; discriminate).
  split; [exact H1 | split; [exact H2 |]].
  exact (C7_target_tests_agree example_detector example_world blank_frame
           example_net H1 H2).
Defined.

(** ** The notification throttle *)

Lemma fire_times_app a b : fire_times (a ++ b) = fire_times a ++ fire_times b.
Proof.
  induction a as [| e a IH]; simpl; [reflexivity |].
  destruct e; simpl; rewrite IH; reflexivity.
Qed.

Lemma alerts_app a b : alerts (a ++ b) = (alerts a + alerts b)%nat.
Proof.
  induction a as [| e a IH]; simpl; [reflexivity |].
  destruct e; simpl; rewrite IH; reflexivity.
Qed.

Lemma last_cons_default (ts : list Q) :
  forall t previous, last (t :: ts) previous = last ts t.
Proof.
  induction ts as [| t' ts IH]; intros t previous; [reflexivity |].
  change (last (t :: t' :: ts) previous) with (last (t' :: ts) previous).
  rewrite (IH t' previous), (IH t' t). reflexivity.
Qed.

Lemma spaced_app c ts1 :
  forall previous ts2,
    spaced c previous ts1 ->
    spaced c (last ts1 previous) ts2 ->
    spaced c previous (ts1 ++ ts2).
Proof.
  induction ts1 as [| t ts1 IH]; intros previous ts2 H1 H2.
  - exact H2.
  - destruct H1 as [Ht H1]. split; [exact Ht |].
    apply IH; [exact H1 |].
    rewrite last_cons_default in H2. exact H2.
Qed.

Lemma last_app_default (ts1 : list Q) :
  forall (ts2 : list Q) previous,
    last (ts1 ++ ts2) previous = last ts2 (last ts1 previous).
Proof.
  induction ts1 as [| t ts1 IH]; intros ts2 previous; [reflexivity |].
  rewrite last_cons_default. rewrite <- app_comm_cons.
  rewrite last_cons_default. rewrite IH.
  destruct ts2 as [| t2 ts2]; [reflexivity |].
  rewrite !last_cons_default. reflexivity.
Qed.

Lemma throttled_refl : forall s, throttled s s.
Proof.
  intro s. exists []. rewrite app_nil_r. simpl. auto.
Qed.

Lemma throttled_trans :
  forall a b c, throttled a b -> throttled b c -> throttled a c.
Proof.
  intros a b c (e1 & Hl1 & Hc1 & Hs1 & Ht1 & Ha1)
         (e2 & Hl2 & Hc2 & Hs2 & Ht2 & Ha2).
  exists (e1 ++ e2).
  rewrite fire_times_app, alerts_app, length_app, last_app_default.
  repeat split.
  - rewrite Hl2, Hl1, app_assoc. reflexivity.
  - congruence.
  - apply spaced_app; [exact Hs1 |]. rewrite <- Ht1, <- Hc1. exact Hs2.
  - rewrite <- Ht1. exact Ht2.
  - lia.
Qed.

(** A step that logs nothing and keeps the throttle fields. *)
Lemma throttled_silent (s s' : St) :
  log (snd s') = log (snd s) ->
  notification_cooldown (fst s') = notification_cooldown (fst s) ->
  last_notification_time (fst s') = last_notification_time (fst s) ->
  throttled s s'.
Proof.
  intros Hl Hc Ht. exists []. rewrite app_nil_r. simpl. auto.
Qed.

Lemma throttled_emit e :
  is_fire_event e = false -> preserves throttled (emit e).
Proof.
  intros He [d w]. exists [e]. simpl.
  destruct e; simpl in *; try discriminate; auto.
Qed.

Lemma throttled_print m : preserves throttled (print m).
Proof. apply throttled_emit. reflexivity. Qed.

Lemma throttled_time_time : preserves throttled time_time.
Proof. intros [d w]. apply throttled_silent; reflexivity. Qed.

Lemma throttled_input p : preserves throttled (input p).
Proof.
  intros [d w]. exists [Printed p].
  unfold input, bind, print, emit; simpl.
  destruct (stdin w) as [| [l |] rest]; simpl; auto.
Qed.

Lemma throttled_set_self f :
  (forall d, notification_cooldown (f d) = notification_cooldown d /\
             last_notification_time (f d) = last_notification_time d) ->
  preserves throttled (set_self f).
Proof.
  intros Hf [d w]. destruct (Hf d) as [Hc Ht].
  apply throttled_silent; simpl; auto.
Qed.

(** One box: the only store of the timestamp is guarded by the cooldown
    test and follows the start of the alert thread. *)
Lemma process_box_throttled box acc :
  preserves throttled (process_box box acc).
Proof.
  intros [d w]. destruct acc as [frame detections].
  unfold process_box, bind, get_self; simpl.
  destruct (lookup_name (class_names d) (cls box)) as [name |];
    [| apply throttled_refl].
  destruct (Qle_bool (Config.confidence_threshold (config d)) (conf box));
    [| apply throttled_refl].
  simpl.
  destruct ((PyStr.lower name =? "person")%string
            && is_target_of (config d) (PyStr.lower name)); simpl;
    [| apply throttled_silent; reflexivity].
  destruct (Qle_bool (notification_cooldown d)
              (clock w (S (clock_reads w)) - last_notification_time d))
    eqn:Hgo; simpl; [| apply throttled_silent; reflexivity].
  apply Qle_bool_iff in Hgo.
  exists [ThreadStart (conf box);
          StoreLastNotificationTime (clock w (S (clock_reads w)))].
  simpl. rewrite <- app_assoc. simpl. auto.
Qed.

Ltac throttled_steps_with known :=
  preserves_steps throttled_refl throttled_trans
    ltac:(first
            [ apply throttled_emit; reflexivity
            | apply throttled_print
            | apply throttled_time_time
            | apply throttled_input
            | apply throttled_set_self;
              let d := fresh "d" in intro d; split; reflexivity
            | known ]).

Lemma process_boxes_throttled boxes :
  forall acc, preserves throttled (process_boxes boxes acc).
Proof.
  induction boxes as [| box rest IH]; intro acc; simpl.
  - throttled_steps_with fail.
  - throttled_steps_with
      ltac:(first [apply process_box_throttled | apply IH]).
Qed.

Lemma process_frame_throttled frame :
  preserves throttled (process_frame frame).
Proof.
  unfold process_frame.
  throttled_steps_with ltac:(apply process_boxes_throttled).
Qed.

Lemma handle_keyboard_input_throttled py_float key :
  preserves throttled (handle_keyboard_input py_float key).
Proof.
  unfold handle_keyboard_input, change_confidence, change_target,
    save_config, float.
  throttled_steps_with fail.
Qed.

Lemma tick_throttled py_float i : preserves throttled (tick py_float i).
Proof.
  unfold tick, process_and_count, show_and_poll, update_stats,
    save_detections, draw_ui_overlay.
  throttled_steps_with
    ltac:(first [ apply process_frame_throttled
                | apply handle_keyboard_input_throttled ]).
Qed.

Lemma while_true_throttled py_float inputs :
  preserves throttled (while_true py_float inputs).
Proof.
  induction inputs as [| i rest IH]; simpl.
  - throttled_steps_with fail.
  - throttled_steps_with ltac:(first [apply tick_throttled | apply IH]).
Qed.

(** The state a qualifying box leaves: two clock readings, and a fire
    exactly when the cooldown test passes. *)
Lemma process_box_qualifying d w box acc :
  qualifying d box ->
  exists r,
    process_box box acc (d, w) =
    (Ret r,
     if Qle_bool (notification_cooldown d)
                 (clock w (S (clock_reads w)) - last_notification_time d)
     then
       (with_last_notification_time (clock w (S (clock_reads w))) d,
        mkWorld (clock w) (S (S (clock_reads w))) (stdin w) (disk_ok w)
                (log w ++ [ThreadStart (conf box);
                           StoreLastNotificationTime
                             (clock w (S (clock_reads w)))]))
     else
       (d, mkWorld (clock w) (S (S (clock_reads w))) (stdin w) (disk_ok w)
                   (log w))).
Proof.
  intros (name & Hname & Hperson & Htarget & Hconf).
  destruct acc as [frame detections].
  unfold process_box, bind, get_self; simpl.
  rewrite Hname, Hperson, Htarget.
  apply Qle_bool_iff in Hconf. rewrite Hconf. simpl.
  destruct (Qle_bool (notification_cooldown d)
              (clock w (S (clock_reads w)) - last_notification_time d));
    simpl; [rewrite <- app_assoc |]; eexists; reflexivity.
Qed.

Lemma events_since_app w evs' l :
  l = log w ++ evs' ->
  skipn (List.length (log w)) l = evs'.
Proof.
  intro H. subst l. rewrite skipn_app, skipn_all, Nat.sub_diag. reflexivity.
Qed.

(** C1.  For a qualifying detection the alert fires exactly when
    [now - last_fired >= cooldown]; over any iterations of the loop the
    fire times are therefore spaced by at least the cooldown, counted from
    the previous fire; two qualifying detections at [t] and [t + C - eps]
    give one fire, at [t] and [t + C] two. *)
Theorem C1_notification_cooldown :
  (forall (d : Detector) (w : World) (box : Box) acc,
      qualifying d box ->
      let now := clock w (S (clock_reads w)) in
      let s' := snd (process_box box acc (d, w)) in
      ((notification_cooldown d <= now - last_notification_time d)%Q <->
       alerts (events_since w (snd s')) = 1%nat) /\
      ((notification_cooldown d <= now - last_notification_time d)%Q ->
       last_notification_time (fst s') = now) /\
      (~ (notification_cooldown d <= now - last_notification_time d)%Q ->
       events_since w (snd s') = [] /\
       last_notification_time (fst s') = last_notification_time d)) /\
  (forall py_float (inputs : list TickInput) (s : St),
      throttled s (snd (while_true py_float inputs s))) /\
  (forall (d : Detector) (w : World) (box1 box2 : Box) acc (eps : Q),
      qualifying d box1 ->
      qualifying d box2 ->
      let t := clock w (S (clock_reads w)) in
      let t2 := clock w (S (S (S (clock_reads w)))) in
      let C := notification_cooldown d in
      let s' := snd (process_boxes [box1; box2] acc (d, w)) in
      (C <= t - last_notification_time d)%Q ->
      ((0 < eps)%Q -> (t2 == t + C - eps)%Q ->
       alerts (events_since w (snd s')) = 1%nat) /\
      ((t2 == t + C)%Q ->
       alerts (events_since w (snd s')) = 2%nat)).
Proof.
  split; [| split].
  - intros d w box acc Hq now s'.
    destruct (process_box_qualifying d w box acc Hq) as (r & Heq).
    subst s'. rewrite Heq. fold now. simpl snd.
    destruct (Qle_bool (notification_cooldown d)
                (now - last_notification_time d)) eqn:Hgo.
    + apply Qle_bool_iff in Hgo. unfold events_since. cbn [snd fst log].
      rewrite (events_since_app w _ _ eq_refl).
      split; [split; [intros _; reflexivity | intros _; exact Hgo] |].
      split; [intros _; reflexivity | intro Hn; contradiction].
    + assert (Hno : ~ (notification_cooldown d
                       <= now - last_notification_time d)%Q).
      { intro H. apply Qle_bool_iff in H. congruence. }
      unfold events_since. cbn [snd fst log].
      rewrite (events_since_app w [] _ (eq_sym (app_nil_r _))).
      split; [split; [intro H; contradiction | discriminate] |].
      split; [intro H; contradiction | intros _; split; reflexivity].
  - intros py_float inputs s. apply while_true_throttled.
  - intros d w box1 box2 acc eps Hq1 Hq2 t t2 C s' Hfirst.
    destruct (process_box_qualifying d w box1 acc Hq1) as (r1 & Heq1).
    assert (Hgo : Qle_bool C (t - last_notification_time d) = true)
      by (apply Qle_bool_iff; exact Hfirst).
    fold t C in Heq1. rewrite Hgo in Heq1.
    assert (Hq2' : qualifying (with_last_notification_time t d) box2)
      by exact Hq2.
    destruct (process_box_qualifying
                (with_last_notification_time t d)
                (mkWorld (clock w) (S (S (clock_reads w))) (stdin w)
                         (disk_ok w)
                         (log w ++ [ThreadStart (conf box1);
                                    StoreLastNotificationTime t]))
                box2 r1 Hq2') as (r2 & Heq2).
    simpl in Heq2. fold t2 C in Heq2.
    assert (Hrun : process_boxes [box1; box2] acc (d, w)
                   = process_box box2 r1
                       (with_last_notification_time t d,
                        mkWorld (clock w) (S (S (clock_reads w))) (stdin w)
                                (disk_ok w)
                                (log w ++ [ThreadStart (conf box1);
                                           StoreLastNotificationTime t]))).
    { rewrite process_boxes_cons, Heq1, process_boxes_cons.
      destruct (process_box box2 r1 _) as [[a | e] s2]; reflexivity. }
    subst s'. rewrite Hrun, Heq2. unfold events_since.
    split.
    + intros Heps Ht2.
      assert (Hstop : Qle_bool C (t2 - t) = false).
      { destruct (Qle_bool C (t2 - t)) eqn:Hb; [| reflexivity].
        apply Qle_bool_iff in Hb. rewrite Ht2 in Hb. lra. }
      rewrite Hstop. cbn [snd log].
      rewrite (events_since_app w _ _ eq_refl). reflexivity.
    + intro Ht2.
      assert (Hagain : Qle_bool C (t2 - t) = true).
      { apply Qle_bool_iff. rewrite Ht2. lra. }
      rewrite Hagain. cbn [snd log].
      rewrite (events_since_app w _ _ (eq_sym (app_assoc _ _ _))).
      reflexivity.
Qed.

Lemma example_person_qualifying : qualifying example_detector example_person.
Proof.
  exists "person"%string. repeat split; try reflexivity.
  apply Qle_bool_iff. reflexivity.
Qed.

Lemma C1_notification_cooldown_witness :
  qualifying example_detector example_person /\
  (notification_cooldown example_detector
   <= example_clock 1 - last_notification_time example_detector)%Q /\
  (0 < 3)%Q /\
  (example_clock 3
   == example_clock 1 + notification_cooldown example_detector - 3)%Q /\
  alerts (events_since example_world
            (snd (snd (process_boxes [example_person; example_person]
                         (blank_frame, [])
                         (example_detector, example_world)))))
  = 1%nat.
Proof.
  assert (H1 : (notification_cooldown example_detector
                <= example_clock 1
                   - last_notification_time example_detector)%Q)
    by (apply Qle_bool_iff; reflexivity).
  assert (H2 : (0 < 3)%Q) by reflexivity.
  assert (H3 : (example_clock 3
                == example_clock 1
                   + notification_cooldown example_detector - 3)%Q)
    by reflexivity.
  split; [exact example_person_qualifying |].
  split; [exact H1 | split; [exact H2 | split; [exact H3 |]]].
  exact (proj1 (proj2 (proj2 C1_notification_cooldown)
                  example_detector example_world
                  example_person example_person (blank_frame, []) 3
                  example_person_qualifying example_person_qualifying H1)
           H2 H3).
Defined.

(** The events of one fire on the example: the thread is started first and
    the timestamp is stored after it, so the update does not precede the
    dispatch. *)
Lemma C2_update_before_dispatch_counterexample :
  events_since example_world
    (snd (snd (process_box example_person (blank_frame, [])
                 (example_detector, example_world))))
  = [ThreadStart (6 # 10); StoreLastNotificationTime (example_clock 1)] /\
  ~ update_precedes_dispatch
      (events_since example_world
         (snd (snd (process_box example_person (blank_frame, [])
                      (example_detector, example_world))))).
Proof.
  assert (Hevs :
            events_since example_world
              (snd (snd (process_box example_person (blank_frame, [])
                           (example_detector, example_world))))
            = [ThreadStart (6 # 10);
               StoreLastNotificationTime (example_clock 1)])
    by reflexivity.
  split; [exact Hevs |].
  rewrite Hevs. intro H.
  destruct (H [] (6 # 10)
              [StoreLastNotificationTime (example_clock 1)] eq_refl)
    as (t & Hin).
  exact Hin.
Qed.

(** C2, as the code has it.  On a fire the alert thread is started first and
    [last_notification_time] is set to [now] right after it; the body of
    the thread, whether the presentation succeeds or fails, returns
    normally and leaves the detector, and so the throttle timestamp, as it
    finds it. *)
Theorem C2_dispatch_then_update :
  forall (d : Detector) (w : World) (box : Box) acc,
    qualifying d box ->
    let now := clock w (S (clock_reads w)) in
    let s' := snd (process_box box acc (d, w)) in
    (notification_cooldown d <= now - last_notification_time d)%Q ->
    events_since w (snd s')
    = [ThreadStart (conf box); StoreLastNotificationTime now] /\
    last_notification_time (fst s') = now /\
    (forall (outcome : Presentation) (s : St),
        exists s2,
          show_message (conf box) outcome s = (Ret tt, s2) /\
          fst s2 = fst s).
Proof.
  intros d w box acc Hq now s' Hgo.
  destruct (process_box_qualifying d w box acc Hq) as (r & Heq).
  subst s'. rewrite Heq. fold now.
  apply Qle_bool_iff in Hgo. rewrite Hgo.
  unfold events_since. cbn [snd fst log].
  rewrite (events_since_app w _ _ eq_refl).
  repeat split.
  intros outcome s. destruct outcome; eexists; split; reflexivity.
Qed.

Lemma C2_dispatch_then_update_witness :
  qualifying example_detector example_person /\
  (notification_cooldown example_detector
   <= example_clock 1 - last_notification_time example_detector)%Q /\
  events_since example_world
    (snd (snd (process_box example_person (blank_frame, [])
                 (example_detector, example_world))))
  = [ThreadStart (conf example_person);
     StoreLastNotificationTime (example_clock 1)] /\
  last_notification_time
    (fst (snd (process_box example_person (blank_frame, [])
                 (example_detector, example_world))))
  = example_clock 1.
Proof.
  assert (H1 : (notification_cooldown example_detector
                <= example_clock 1
                   - last_notification_time example_detector)%Q)
    by (apply Qle_bool_iff; reflexivity).
  split; [exact example_person_qualifying | split; [exact H1 |]].
  destruct (C2_dispatch_then_update example_detector example_world
              example_person (blank_frame, []) example_person_qualifying H1)
    as (Hevs & Hlast & _).
  split; [exact Hevs | exact Hlast].
Defined.

(** ** Prompts *)

Lemma in_unit_interval_iff q :
  in_unit_interval (Finite q) = true <-> (0 <= q /\ q <= 1)%Q.
Proof.
  unfold in_unit_interval. rewrite andb_true_iff, !Qle_bool_iff. tauto.
Qed.

Lemma change_confidence_invalid py_float d w diagnostic :
  invalid_confidence_input py_float (stdin w) diagnostic ->
  exists w',
    change_confidence py_float (d, w) = (Ret tt, (d, w')) /\
    log w'
    = log w
      ++ map Printed
           [MsgCurrentThreshold (Config.confidence_threshold (config d));
            MsgEnterThreshold; MsgTypeInConsole; MsgPromptConfidence;
            diagnostic; MsgSettingsUpdated].
Proof.
  intro Hinv.
  unfold change_confidence, try_except, input, float, bind, print, emit,
    get_self; simpl.
  inversion Hinv as [Hs | rest Hs | l rest Ht Hf Hs | l rest q Ht Hf Hq Hs
                     | l rest Ht Hf Hs]; subst; simpl.
  - eexists; split; [reflexivity |]. simpl.
    repeat rewrite <- app_assoc. reflexivity.
  - eexists; split; [reflexivity |]. simpl.
    repeat rewrite <- app_assoc. reflexivity.
  - rewrite Ht, Hf. simpl.
    eexists; split; [reflexivity |]. simpl.
    repeat rewrite <- app_assoc. reflexivity.
  - rewrite Ht, Hf. simpl.
    assert (Hout : Qle_bool 0 q && Qle_bool q 1 = false).
    { destruct (Qle_bool 0 q && Qle_bool q 1) eqn:Hb; [| reflexivity].
      exfalso. apply Hq. apply in_unit_interval_iff. exact Hb. }
    rewrite Hout. simpl.
    eexists; split; [reflexivity |]. simpl.
    repeat rewrite <- app_assoc. reflexivity.
  - rewrite Ht, Hf. simpl.
    eexists; split; [reflexivity |]. simpl.
    repeat rewrite <- app_assoc. reflexivity.
Qed.

Lemma handle_keyboard_input_c py_float s :
  handle_keyboard_input py_float (ord "c") s
  = bind (change_confidence py_float) (fun _ => ret true) s.
Proof. reflexivity. Qed.

Lemma show_and_poll_eq py_float key_code frame d w :
  show_and_poll py_float key_code frame (d, w)
  = match handle_keyboard_input py_float (Z.land key_code 255)
            (d, world_emit
                  (ImShow
                     (draw (Panel (Config.target_classes (config d))
                                  (Config.confidence_threshold (config d))
                                  (target_detections (detection_stats d))
                                  (paused d) (show_help d)) frame)) w) with
    | (Ret true, s') => (Ret Continue, s')
    | (Ret false, s') => (Ret Break, s')
    | (Raise e, s') => (Raise e, s')
    end.
Proof.
  unfold show_and_poll, draw_ui_overlay, bind, get_self, emit, ret,
    world_emit; cbn [fst snd].
  destruct (handle_keyboard_input py_float (Z.land key_code 255) _)
    as [[[|] | e] s']; reflexivity.
Qed.

(** C8.  An invalid answer to the confidence prompt keeps the detector as
    it was, threshold included; the only effect is console output, which
    carries the diagnostic; the method returns normally and the key handler
    asks the loop to continue. *)
Theorem C8_invalid_confidence_input_keeps_threshold :
  forall py_float (d : Detector) (w : World) (diagnostic : Msg),
    invalid_confidence_input py_float (stdin w) diagnostic ->
    exists w',
      change_confidence py_float (d, w) = (Ret tt, (d, w')) /\
      log w'
      = log w
        ++ map Printed
             [MsgCurrentThreshold (Config.confidence_threshold (config d));
              MsgEnterThreshold; MsgTypeInConsole; MsgPromptConfidence;
              diagnostic; MsgSettingsUpdated] /\
      handle_keyboard_input py_float (ord "c") (d, w) = (Ret true, (d, w')) /\
      (forall key_code frame,
          Z.land key_code 255 = ord "c" ->
          exists w2,
            show_and_poll py_float key_code frame (d, w)
            = (Ret Continue, (d, w2))).
Proof.
  intros py_float d w diagnostic Hinv.
  destruct (change_confidence_invalid py_float d w diagnostic Hinv)
    as (w' & Hcc & Hlog).
  exists w'. split; [exact Hcc | split; [exact Hlog |]].
  split.
  - rewrite handle_keyboard_input_c, (bind_Ret _ Hcc). reflexivity.
  - intros key_code frame Hland.
    rewrite show_and_poll_eq, Hland, handle_keyboard_input_c.
    destruct (change_confidence_invalid py_float d
                (world_emit
                   (ImShow
                      (draw (Panel (Config.target_classes (config d))
                                   (Config.confidence_threshold (config d))
                                   (target_detections (detection_stats d))
                                   (paused d) (show_help d)) frame)) w)
                diagnostic Hinv)
      as (w2 & Hcc2 & _).
    rewrite (bind_Ret _ Hcc2). exists w2. reflexivity.
Qed.

Lemma C8_invalid_confidence_input_keeps_threshold_witness :
  invalid_confidence_input decimal_float
    (stdin (typing "1.5" example_world)) MsgMustBeBetween /\
  exists w',
    change_confidence decimal_float
      (example_detector, typing "1.5" example_world)
    = (Ret tt, (example_detector, w')) /\
    log w'
    = log (typing "1.5" example_world)
      ++ map Printed
           [MsgCurrentThreshold
              (Config.confidence_threshold (config example_detector));
            MsgEnterThreshold; MsgTypeInConsole; MsgPromptConfidence;
            MsgMustBeBetween; MsgSettingsUpdated] /\
    handle_keyboard_input decimal_float (ord "c")
      (example_detector, typing "1.5" example_world)
    = (Ret true, (example_detector, w')).
Proof.
  assert (Hinv : invalid_confidence_input decimal_float
                   (stdin (typing "1.5" example_world)) MsgMustBeBetween).
  { apply (@out_of_range decimal_float "1.5"%string [] (15 # 10));
      [reflexivity | reflexivity |].
    intros [_ H]. apply Qle_bool_iff in H. discriminate. }
  split; [exact Hinv |].
  destruct (C8_invalid_confidence_input_keeps_threshold decimal_float
              example_detector (typing "1.5" example_world)
              MsgMustBeBetween Hinv) as (w' & Hcc & Hlog & Hkey & _).
  exists w'. split; [exact Hcc | split; [exact Hlog | exact Hkey]].
Defined.

Lemma split_not_nil sep s : PyStr.split sep s <> [].
Proof.
  destruct s as [| c r]; simpl; [discriminate |].
  destruct (Ascii.eqb c sep); [discriminate |].
  destruct (PyStr.split sep r); discriminate.
Qed.

Lemma split_targets_not_nil s : split_targets s <> [].
Proof.
  unfold split_targets. pose proof (split_not_nil "," s) as H.
  destruct (PyStr.split "," s); [contradiction | discriminate].
Qed.

(** The line [" "] is not empty, yet the target classes stay ["person"]
    instead of becoming the entries of the line. *)
Lemma C9_raw_line_rule_counterexample :
  targets_after " " example_detector example_world = ["person"%string] /\
  split_targets " " = [EmptyString] /\
  ~ raw_line_rule.
Proof.
  split; [reflexivity | split; [reflexivity |]].
  intro H.
  destruct (H " "%string example_detector example_world) as [Hnonempty _].
  destruct (Hnonempty ltac:(discriminate)) as [Heq _].
  discriminate Heq.
Qed.

(** C9, as the code has it.  A line that is not empty once stripped
    replaces the target classes by the comma-separated entries of the
    stripped line, each stripped and lowercased, at least one entry; a line
    that is empty or blank keeps the target classes. *)
Theorem C9_target_edit :
  forall (typed : string) (d : Detector) (w : World),
    (PyStr.strip typed <> EmptyString ->
     targets_after typed d w = split_targets (PyStr.strip typed) /\
     split_targets (PyStr.strip typed) <> []) /\
    (PyStr.strip typed = EmptyString ->
     targets_after typed d w = Config.target_classes (config d)).
Proof.
  intros typed d w.
  unfold targets_after, typing, change_target, try_except, input, bind,
    print, emit, get_self, set_self; simpl.
  split.
  - intro Hne. split; [| apply split_targets_not_nil].
    destruct (PyStr.strip typed) as [| c r] eqn:Hs;
      [contradiction | reflexivity].
  - intro He. rewrite He. reflexivity.
Qed.

Lemma C9_target_edit_witness :
  PyStr.strip "Cat, DOG" <> EmptyString /\
  targets_after "Cat, DOG" example_detector example_world
  = ["cat"%string; "dog"%string] /\
  PyStr.strip "" = EmptyString /\
  targets_after "" example_detector example_world = ["person"%string].
Proof.
  assert (H1 : PyStr.strip "Cat, DOG" <> EmptyString) by discriminate.
  split; [exact H1 |].
  split.
  - exact (proj1 (proj1 (C9_target_edit "Cat, DOG" example_detector
                           example_world) H1)).
  - split; [reflexivity |].
    exact (proj2 (C9_target_edit "" example_detector example_world)
             eq_refl).
Defined.

(** The runtime edit keeps the threshold in range, whatever is typed. *)
Lemma change_confidence_keeps_range py_float d w :
  threshold_in_range d ->
  threshold_in_range (fst (snd (change_confidence py_float (d, w)))).
Proof.
  intro Hin.
  unfold change_confidence, try_except, input, float, bind, print, emit,
    get_self, set_self; simpl.
  destruct (stdin w) as [| [l |] rest]; simpl; try exact Hin.
  destruct (PyStr.truthy (PyStr.strip l)); simpl; [| exact Hin].
  destruct (py_float (PyStr.strip l)) as [[q |] |]; simpl; try exact Hin.
  destruct (Qle_bool 0 q && Qle_bool q 1) eqn:Hb; simpl; [| exact Hin].
  apply in_unit_interval_iff. exact Hb.
Qed.

(** C6 on [main]: the value of [--confidence] is stored as it is; with 1.5
    the session starts with a threshold outside [0, 1]. *)
Theorem C6_cli_confidence_not_validated :
  Config.confidence_threshold
    (config (fst (main_detector example_args_confidence Missing
                                example_world)))
  = 3 # 2 /\
  ~ threshold_in_range
      (fst (main_detector example_args_confidence Missing example_world)).
Proof.
  split; [reflexivity |].
  intros [_ H]. apply Qle_bool_iff in H. discriminate.
Qed.

(** * Further properties of the code *)

(** ** The prompts and the key handler *)

(** [change_confidence] always returns; the detector is kept, or its
    threshold alone is replaced by a value of [0, 1]; the world only
    receives console lines. *)
Lemma change_confidence_effect py_float d w :
  exists d' w',
    change_confidence py_float (d, w) = (Ret tt, (d', w')) /\
    (d' = d \/
     exists q, (0 <= q /\ q <= 1)%Q /\
               d' = with_config
                      (Config.with_confidence_threshold q (config d)) d) /\
    prints_only w w'.
Proof.
  unfold change_confidence, try_except, input, float, bind, print, emit,
    get_self, set_self, prints_only; simpl.
  destruct (stdin w) as [| [l |] rest]; simpl.
  - eexists _, _; split; [reflexivity |]. split; [left; reflexivity |].
    simpl. eexists [_; _; _; _; _; _]. simpl.
    repeat rewrite <- app_assoc. reflexivity.
  - destruct (PyStr.truthy (PyStr.strip l)); simpl.
    + destruct (py_float (PyStr.strip l)) as [[q |] |]; simpl.
      * destruct (Qle_bool 0 q && Qle_bool q 1) eqn:Hb; simpl.
        -- eexists _, _; split; [reflexivity |]. split.
           ++ right. exists q. split; [| reflexivity].
              apply in_unit_interval_iff. exact Hb.
           ++ simpl. eexists [_; _; _; _; _; _]. simpl.
              repeat rewrite <- app_assoc. reflexivity.
        -- eexists _, _; split; [reflexivity |].
           split; [left; reflexivity |].
           simpl. eexists [_; _; _; _; _; _]. simpl.
           repeat rewrite <- app_assoc. reflexivity.
      * eexists _, _; split; [reflexivity |]. split; [left; reflexivity |].
        simpl. eexists [_; _; _; _; _; _]. simpl.
        repeat rewrite <- app_assoc. reflexivity.
      * eexists _, _; split; [reflexivity |]. split; [left; reflexivity |].
        simpl. eexists [_; _; _; _; _; _]. simpl.
        repeat rewrite <- app_assoc. reflexivity.
    + eexists _, _; split; [reflexivity |]. split; [left; reflexivity |].
      simpl. eexists [_; _; _; _; _; _]. simpl.
      repeat rewrite <- app_assoc. reflexivity.
  - eexists _, _; split; [reflexivity |]. split; [left; reflexivity |].
    simpl. eexists [_; _; _; _; _; _]. simpl.
    repeat rewrite <- app_assoc. reflexivity.
Qed.

(** [change_target] always returns; the detector is kept, or its target
    classes alone are replaced by the entries of a line; the world only
    receives console lines. *)
Lemma change_target_effect d w :
  exists d' w',
    change_target (d, w) = (Ret tt, (d', w')) /\
    (d' = d \/
     exists line,
       d' = with_config
              (Config.with_target_classes (split_targets line) (config d))
              d) /\
    prints_only w w'.
Proof.
  unfold change_target, try_except, input, bind, print, emit,
    get_self, set_self, prints_only; simpl.
  destruct (stdin w) as [| [l |] rest]; simpl.
  - eexists _, _; split; [reflexivity |]. split; [left; reflexivity |].
    simpl. eexists [_; _; _; _; _; _; _]. simpl.
    repeat rewrite <- app_assoc. reflexivity.
  - destruct (PyStr.truthy (PyStr.strip l)); simpl.
    + eexists _, _; split; [reflexivity |]. split.
      * right. exists (PyStr.strip l). reflexivity.
      * simpl. eexists [_; _; _; _; _; _; _]. simpl.
        repeat rewrite <- app_assoc. reflexivity.
    + eexists _, _; split; [reflexivity |]. split; [left; reflexivity |].
      simpl. eexists [_; _; _; _; _; _; _]. simpl.
      repeat rewrite <- app_assoc. reflexivity.
  - eexists _, _; split; [reflexivity |]. split; [left; reflexivity |].
    simpl. eexists [_; _; _; _; _; _; _]. simpl.
    repeat rewrite <- app_assoc. reflexivity.
Qed.

Lemma prints_only_console w w' :
  prints_only w w' ->
  exists evs, log w' = log w ++ evs /\ forallb console_or_config evs = true.
Proof.
  intros (msgs & Hlog). exists (map Printed msgs). split; [exact Hlog |].
  clear. induction msgs; simpl; auto.
Qed.

Lemma handle_keyboard_input_effect :
  forall py_float (key : Z) (d : Detector) (w : World),
  exists b d' w',
    handle_keyboard_input py_float key (d, w) = (Ret b, (d', w')) /\
    (b = false <-> key = ord "q") /\
    (key = ord "q" -> d' = d /\ w' = w) /\
    key_change d d' /\
    (exists evs,
        log w' = log w ++ evs /\ forallb console_or_config evs = true).
Proof.
  intros py_float key d w. unfold handle_keyboard_input.
  destruct (Z.eqb key (ord "q")) eqn:Hq.
  { apply Z.eqb_eq in Hq. exists false, d, w.
    split; [reflexivity |]. split; [tauto |]. split; [auto |].
    split; [left; reflexivity |]. exists []. rewrite app_nil_r. auto. }
  apply Z.eqb_neq in Hq.
  assert (Hb : forall b : bool, b = true -> (b = false <-> key = ord "q")).
  { intros b Hb. subst b. split; [discriminate | contradiction]. }
  destruct (Z.eqb key (ord " ")).
  { eexists true, _, _. split; [reflexivity |].
    split; [apply Hb; reflexivity |]. split; [contradiction |].
    split; [right; left; reflexivity |].
    simpl. eexists [_]. split; reflexivity. }
  destruct (Z.eqb key (ord "h")).
  { eexists true, _, _. split; [reflexivity |].
    split; [apply Hb; reflexivity |]. split; [contradiction |].
    split; [right; right; left; reflexivity |].
    simpl. exists []. rewrite app_nil_r. auto. }
  destruct (Z.eqb key (ord "c")).
  { destruct (change_confidence_effect py_float d w)
      as (d' & w' & Hcc & Hd & Hw).
    exists true, d', w'. split.
    { rewrite (bind_Ret _ Hcc). reflexivity. }
    split; [apply Hb; reflexivity |]. split; [contradiction |].
    split; [| apply prints_only_console; exact Hw].
    destruct Hd as [Hd | Hd]; [left; exact Hd | right; right; right; left].
    exact Hd. }
  destruct (Z.eqb key (ord "t")).
  { destruct (change_target_effect d w) as (d' & w' & Hct & Hd & Hw).
    exists true, d', w'. split.
    { rewrite (bind_Ret _ Hct). reflexivity. }
    split; [apply Hb; reflexivity |]. split; [contradiction |].
    split; [| apply prints_only_console; exact Hw].
    destruct Hd as [Hd | Hd]; [left; exact Hd | right; right; right; right].
    exact Hd. }
  destruct (Z.eqb key (ord "s")).
  { unfold save_config, bind, get_self, get_disk_ok, print, emit, ret.
    cbn [fst snd].
    destruct (disk_ok w); cbn [fst snd log];
      (eexists true, _, _; split; [reflexivity |];
       split; [apply Hb; reflexivity |]; split; [contradiction |];
       split; [left; reflexivity |];
       cbn [log]; eexists [_; _];
       split; [rewrite <- app_assoc; reflexivity | reflexivity]). }
  exists true, d, w. split; [reflexivity |].
  split; [apply Hb; reflexivity |]. split; [contradiction |].
  split; [left; reflexivity |]. exists []. rewrite app_nil_r. auto.
Qed.



(** ** Properties of the configuration kept by the loop *)

Lemma preserves_weaken (R R' : St -> St -> Prop) {A} (m : M A) :
  (forall s s', R s s' -> R' s s') -> preserves R m -> preserves R' m.
Proof. intros H Hm s. apply H, Hm. Qed.

Section ConfigInvariant.

Variable P : Config.t -> Prop.
Hypothesis P_threshold :
  forall c q, P c -> (0 <= q /\ q <= 1)%Q ->
              P (Config.with_confidence_threshold q c).
Hypothesis P_targets :
  forall c line, P c -> P (Config.with_target_classes (split_targets line) c).

Lemma config_kept_refl : forall d, config_kept P d d.
Proof. intros d H; exact H. Qed.

Lemma config_kept_trans :
  forall a b c, config_kept P a b -> config_kept P b c -> config_kept P a c.
Proof. unfold config_kept; auto. Qed.

Lemma key_change_config_kept d d' : key_change d d' -> config_kept P d d'.
Proof.
  intros [H | [H | [H | [(q & Hq & H) | (line & H)]]]] HP; subst d'; simpl;
    auto.
Qed.

Lemma handle_keyboard_input_config_kept py_float key :
  preserves (lift (config_kept P)) (handle_keyboard_input py_float key).
Proof.
  intros [d w].
  destruct (handle_keyboard_input_effect py_float key d w)
    as (b & d' & w' & Heq & _ & _ & Hchange & _).
  rewrite Heq. apply key_change_config_kept. exact Hchange.
Qed.

Lemma same_but_throttle_config_kept s s' :
  lift same_but_throttle s s' -> lift (config_kept P) s s'.
Proof.
  intros (_ & _ & Hcfg & _) HP. rewrite Hcfg. exact HP.
Qed.

Lemma tick_config_kept py_float i :
  preserves (lift (config_kept P)) (tick py_float i).
Proof.
  unfold tick, process_and_count, show_and_poll, update_stats,
    save_detections, draw_ui_overlay.
  preserves_steps
    (lift_refl (config_kept P) config_kept_refl)
    (lift_trans (config_kept P) config_kept_trans)
    ltac:(first
            [ apply lift_emit; exact config_kept_refl
            | apply lift_print; exact config_kept_refl
            | apply lift_set_self;
              let d := fresh "d" in
              intro d; unfold config_kept; simpl; tauto
            | apply handle_keyboard_input_config_kept
            | apply (preserves_weaken (lift same_but_throttle));
              [ exact same_but_throttle_config_kept
              | apply process_frame_throttle_only ] ]).
Qed.

Lemma while_true_config_kept py_float inputs :
  preserves (lift (config_kept P)) (while_true py_float inputs).
Proof.
  induction inputs as [| i rest IH]; simpl.
  - intro s. apply config_kept_refl.
  - apply preserves_bind;
      [exact (lift_trans (config_kept P) config_kept_trans)
      | apply tick_config_kept |].
    intros [|]; [exact IH | intro s; apply config_kept_refl].
Qed.

End ConfigInvariant.

(** X2.  Once the threshold lies in [0, 1], no sequence of iterations of
    the loop, whatever keys are pressed and whatever is typed, takes it out
    of [0, 1]. *)
Theorem X2_loop_keeps_threshold_in_range :
  forall py_float (inputs : list TickInput) (s : St),
    config_in_range (config (fst s)) ->
    config_in_range (config (fst (snd (while_true py_float inputs s)))).
Proof.
  intros py_float inputs s.
  exact (while_true_config_kept config_in_range
           (fun c q _ Hq => Hq) (fun c line H => H) py_float inputs s).
Qed.

Lemma X2_loop_keeps_threshold_in_range_witness :
  config_in_range (config example_detector) /\
  config_in_range
    (config (fst (snd (while_true decimal_float
                         [mkTick (Some blank_frame) (ord "c");
                          mkTick (Some blank_frame) (ord "c")]
                         (example_detector,
                          typing "0.25" (typing "7" example_world)))))).
Proof.
  assert (H : config_in_range (config example_detector)).
  { split; apply Qle_bool_iff; reflexivity. }
  split; [exact H |].
  exact (X2_loop_keeps_threshold_in_range decimal_float _
           (example_detector, typing "0.25" (typing "7" example_world)) H).
Defined.

Lemma lower_char_idempotent c :
  PyStr.lower_char (PyStr.lower_char c) = PyStr.lower_char c.
Proof.
  destruct c as [[] [] [] [] [] [] [] []]; reflexivity.
Qed.

Lemma lower_idempotent s : PyStr.lower (PyStr.lower s) = PyStr.lower s.
Proof.
  induction s as [| c r IH]; simpl; [reflexivity |].
  rewrite lower_char_idempotent, IH. reflexivity.
Qed.

Lemma split_targets_lowercase line :
  map PyStr.lower (split_targets line) = split_targets line.
Proof.
  unfold split_targets. rewrite map_map. apply map_ext.
  intro t. apply lower_idempotent.
Qed.

(** X3.  Target classes that are all lowercase stay so over any iterations
    of the loop: the target prompt stores lowercase entries only.  They are
    lowercase at the start of a session whenever [--targets] is given, or
    the configuration file is missing or unreadable and [--targets] is
    absent. *)
Theorem X3_targets_stay_lowercase :
  (forall py_float (inputs : list TickInput) (s : St),
      targets_lowercase (config (fst s)) ->
      targets_lowercase
        (config (fst (snd (while_true py_float inputs s))))) /\
  (forall (args : Args) (file : ConfigFile) (w : World) (t : string),
      arg_targets args = Some t ->
      t <> EmptyString ->
      targets_lowercase (config (fst (main_detector args file w)))) /\
  (forall (args : Args) (file : ConfigFile) (w : World),
      arg_targets args = None ->
      file = Missing \/ file = Unreadable ->
      targets_lowercase (config (fst (main_detector args file w)))).
Proof.
  split; [| split].
  - intros py_float inputs s.
    apply (while_true_config_kept targets_lowercase).
    + intros c q H _. exact H.
    + intros c line _. unfold targets_lowercase. simpl.
      apply split_targets_lowercase.
  - intros args file w t Ht Hne.
    unfold main_detector, init. destruct (load_config file w) as [cfg w'].
    unfold apply_overrides. rewrite Ht. simpl.
    destruct t as [| c r]; [contradiction |]. simpl.
    unfold targets_lowercase. simpl. apply split_targets_lowercase.
  - intros args file w Ht Hfile.
    unfold main_detector, init.
    assert (Hcfg : fst (load_config file w) = default_config)
      by (destruct Hfile; subst file; reflexivity).
    destruct (load_config file w) as [cfg w']. simpl in Hcfg. subst cfg.
    unfold apply_overrides. rewrite Ht. simpl.
    destruct (arg_model args) as [m |]; [destruct (PyStr.truthy m) |];
      destruct (arg_source args); destruct (arg_confidence args);
      reflexivity.
Qed.

Lemma X3_targets_stay_lowercase_witness :
  targets_lowercase
    (config (fst (main_detector (mkArgs None None None (Some "Cat, DOG"%string))
                                Missing example_world))) /\
  targets_lowercase
    (config (fst (snd (while_true decimal_float
                         [mkTick (Some blank_frame) (ord "t")]
                         (example_detector,
                          typing "Bus ,TRUCK" example_world))))).
Proof.
  destruct X3_targets_stay_lowercase as (Hloop & Hcli & _).
  split.
  - apply (Hcli _ _ _ "Cat, DOG"%string); [reflexivity | discriminate].
  - apply Hloop. reflexivity.
Defined.

(** X4.  A line that parses to a number of [0, 1], bounds included,
    becomes the threshold and nothing else of the detector changes; a blank
    line keeps the detector. *)
Theorem X4_confidence_edit_applies :
  forall py_float (d : Detector) (w : World) (l : string) (rest : list Typed),
    stdin w = Line l :: rest ->
    (forall q,
        PyStr.strip l <> EmptyString ->
        py_float (PyStr.strip l) = Some (Finite q) ->
        (0 <= q /\ q <= 1)%Q ->
        exists w',
          change_confidence py_float (d, w)
          = (Ret tt,
             (with_config (Config.with_confidence_threshold q (config d)) d,
              w')) /\
          stdin w' = rest /\
          log w'
          = log w
            ++ map Printed
                 [MsgCurrentThreshold
                    (Config.confidence_threshold (config d));
                  MsgEnterThreshold; MsgTypeInConsole; MsgPromptConfidence;
                  MsgThresholdSet q; MsgSettingsUpdated]) /\
    (PyStr.strip l = EmptyString ->
     exists w',
       change_confidence py_float (d, w) = (Ret tt, (d, w')) /\
       stdin w' = rest /\
       log w'
       = log w
         ++ map Printed
              [MsgCurrentThreshold (Config.confidence_threshold (config d));
               MsgEnterThreshold; MsgTypeInConsole; MsgPromptConfidence;
               MsgKeepingThreshold; MsgSettingsUpdated]).
Proof.
  intros py_float d w l rest Hin.
  unfold change_confidence, try_except, input, float, bind, print, emit,
    get_self, set_self; simpl. rewrite Hin. simpl.
  split.
  - intros q Hne Hf Hq.
    destruct (PyStr.strip l) as [| c r] eqn:Hs; [contradiction |].
    simpl. rewrite Hf. simpl.
    apply in_unit_interval_iff in Hq. unfold in_unit_interval in Hq.
    rewrite Hq. simpl.
    eexists. split; [reflexivity |]. simpl. split; [reflexivity |].
    repeat rewrite <- app_assoc. reflexivity.
  - intro He. rewrite He. simpl.
    eexists. split; [reflexivity |]. simpl. split; [reflexivity |].
    repeat rewrite <- app_assoc. reflexivity.
Qed.

Lemma X4_confidence_edit_applies_witness :
  exists w',
    change_confidence decimal_float
      (example_detector, typing " 1.0 " example_world)
    = (Ret tt,
       (with_config
          (Config.with_confidence_threshold (10 # 10)
             (config example_detector)) example_detector, w')) /\
    stdin w' = [].
Proof.
  destruct (proj1 (X4_confidence_edit_applies decimal_float example_detector
                     (typing " 1.0 " example_world) " 1.0 " [] eq_refl)
              (10 # 10) ltac:(discriminate) eq_refl
              ltac:(split; apply Qle_bool_iff; reflexivity))
    as (w' & Heq & Hin & _).
  exists w'. split; [exact Heq | exact Hin].
Defined.

(** ** Alerts within one frame *)

Lemma quiet_refl : forall s, quiet s s.
Proof. intro s; split; reflexivity. Qed.

Lemma process_box_quiet box acc d w :
  notify_candidate d box = false ->
  quiet (d, w) (snd (process_box box acc (d, w))).
Proof.
  intro Hno. destruct acc as [frame detections].
  unfold notify_candidate, label_of in Hno.
  unfold process_box, bind, get_self; simpl.
  destruct (lookup_name (class_names d) (cls box)) as [name |];
    [| apply quiet_refl].
  destruct (Qle_bool (Config.confidence_threshold (config d)) (conf box));
    [| apply quiet_refl].
  simpl. rewrite Hno. split; reflexivity.
Qed.

Lemma process_boxes_quiet boxes :
  forall acc d w,
    Forall (fun box => notify_candidate d box = false) boxes ->
    quiet (d, w) (snd (process_boxes boxes acc (d, w))).
Proof.
  induction boxes as [| box rest IH]; intros acc d w Hall.
  - apply quiet_refl.
  - inversion Hall as [| ? ? Hbox Hrest]; subst.
    rewrite process_boxes_cons.
    pose proof (process_box_quiet box acc d w Hbox) as Hq.
    destruct (process_box box acc (d, w)) as [[acc' | e] [d1 w1]];
      destruct Hq as [Hd Hl]; simpl in Hd, Hl; subst d1.
    + destruct (IH acc' d w1 Hrest) as [Hd2 Hl2].
      split; [exact Hd2 | rewrite Hl2; exact Hl].
    + split; [reflexivity | exact Hl].
Qed.

(** X5.  A frame in which no box is both labelled "person" and a target
    match raises no alert and leaves the detector, throttle timestamp
    included, as it was: other target classes are counted and drawn but
    never notified. *)
Theorem X5_only_person_targets_notify :
  forall (d : Detector) (w : World) (frame : Frame) (net : Frame -> list Box),
    model d = Some net ->
    Forall (fun box => notify_candidate d box = false) (net frame) ->
    fst (snd (process_frame frame (d, w))) = d /\
    log (snd (snd (process_frame frame (d, w)))) = log w.
Proof.
  intros d w frame net Hmodel Hall.
  unfold process_frame.
  rewrite (bind_Ret _ (eq_refl : get_self (d, w) = (Ret d, (d, w)))).
  rewrite Hmodel.
  exact (process_boxes_quiet (net frame) (frame, []) d w Hall).
Qed.

Lemma X5_only_person_targets_notify_witness :
  let d := with_config
             (Config.with_target_classes ["dog"%string]
                (config example_detector))
             example_detector in
  model d = Some example_net /\
  Forall (fun box => notify_candidate d box = false)
         (example_net blank_frame) /\
  fst (snd (process_frame blank_frame (d, example_world))) = d /\
  log (snd (snd (process_frame blank_frame (d, example_world)))) = [].
Proof.
  intro d.
  assert (H1 : model d = Some example_net) by reflexivity.
  assert (H2 : Forall (fun box => notify_candidate d box = false)
                      (example_net blank_frame))
    by (repeat constructor).
  split; [exact H1 | split; [exact H2 |]].
  exact (X5_only_person_targets_notify d example_world blank_frame
           example_net H1 H2).
Defined.

Section OneAlertPerFrame.

Variable clk : nat -> Q.
Variable C : Q.
Variable n0 : nat.

(** From reading [n0] on, a later reading is less than [C] after an earlier
    one. *)
Hypothesis window :
  forall i j, (n0 <= i)%nat -> (i <= j)%nat -> (clk j - clk i < C)%Q.

Lemma one_alert_refl : forall s, one_alert clk C n0 s s.
Proof.
  intros s Hclk HC Hn.
  split; [exact Hclk | split; [exact HC | split; [lia |]]].
  exists []. rewrite app_nil_r.
  split; [reflexivity |].
  split; [intro H; split; [reflexivity | exact H] |].
  left; split; reflexivity.
Qed.

Lemma one_alert_trans :
  forall a b c,
    one_alert clk C n0 a b -> one_alert clk C n0 b c ->
    one_alert clk C n0 a c.
Proof.
  intros a b c Hab Hbc Hclk HC Hn.
  destruct (Hab Hclk HC Hn) as (Hclk1 & HC1 & Hr1 & e1 & Hl1 & Hrec1 & Hc1).
  destruct (Hbc Hclk1 HC1 ltac:(lia))
    as (Hclk2 & HC2 & Hr2 & e2 & Hl2 & Hrec2 & Hc2).
  split; [exact Hclk2 | split; [exact HC2 | split; [lia |]]].
  exists (e1 ++ e2). rewrite alerts_app.
  split; [rewrite Hl2, Hl1, app_assoc; reflexivity |].
  split.
  - intro Hrec. destruct (Hrec1 Hrec) as [Hz1 Hb].
    destruct (Hrec2 Hb) as [Hz2 Hc]. split; [lia | exact Hc].
  - destruct Hc1 as [[Hz1 Hlast1] | [Hone1 Hb]].
    + destruct Hc2 as [[Hz2 Hlast2] | [Hone2 Hc]].
      * left. split; [lia | congruence].
      * right. split; [lia | exact Hc].
    + destruct (Hrec2 Hb) as [Hz2 Hc]. right. split; [lia | exact Hc].
Qed.

Lemma recent_later d w reads' :
  (clock_reads w <= reads')%nat ->
  recent n0 (d, w) ->
  recent n0 (d, mkWorld (clock w) reads' (stdin w) (disk_ok w) (log w)).
Proof.
  intros Hle (n & Hn & Hlast). exists n. simpl in *. split; [lia | exact Hlast].
Qed.

Lemma process_box_one_alert box acc :
  preserves (one_alert clk C n0) (process_box box acc).
Proof.
  intros [d w]. destruct acc as [frame detections].
  unfold process_box, bind, get_self; simpl.
  destruct (lookup_name (class_names d) (cls box)) as [name |];
    [| apply one_alert_refl].
  destruct (Qle_bool (Config.confidence_threshold (config d)) (conf box));
    [| apply one_alert_refl].
  simpl.
  destruct ((PyStr.lower name =? "person")%string
            && is_target_of (config d) (PyStr.lower name)); simpl.
  - destruct (Qle_bool (notification_cooldown d)
                (clock w (S (clock_reads w)) - last_notification_time d))
      eqn:Hgo; simpl.
    + intros Hclk HC Hn. cbn [fst snd clock clock_reads log
                               notification_cooldown
                               with_last_notification_time] in *.
      split; [exact Hclk | split; [exact HC | split; [lia |]]].
      exists [ThreadStart (conf box);
              StoreLastNotificationTime (clock w (S (clock_reads w)))].
      split; [rewrite <- app_assoc; reflexivity |].
      split.
      * intros (n & Hrange & Hlast).
        cbn [fst snd clock clock_reads last_notification_time] in *.
        exfalso.
        apply Qle_bool_iff in Hgo. rewrite Hlast, HC, Hclk in Hgo.
        pose proof (window n (S (clock_reads w)) ltac:(lia) ltac:(lia)).
        lra.
      * right. split; [reflexivity |].
        exists (S (clock_reads w)).
        cbn [fst snd clock clock_reads last_notification_time
             with_last_notification_time].
        split; [lia | reflexivity].
    + intros Hclk HC Hn. cbn [fst snd clock clock_reads log] in *.
      split; [exact Hclk | split; [exact HC | split; [lia |]]].
      exists []. rewrite app_nil_r.
      split; [reflexivity |].
      split; [| left; split; reflexivity].
      intro Hrec. split; [reflexivity |].
      apply (recent_later d w (S (S (clock_reads w)))); [lia | exact Hrec].
  - intros Hclk HC Hn. cbn [fst snd clock clock_reads log] in *.
    split; [exact Hclk | split; [exact HC | split; [lia |]]].
    exists []. rewrite app_nil_r.
    split; [reflexivity |].
    split; [| left; split; reflexivity].
    intro Hrec. split; [reflexivity |].
    apply (recent_later d w (S (clock_reads w))); [lia | exact Hrec].
Qed.

Lemma process_boxes_one_alert boxes :
  forall acc, preserves (one_alert clk C n0) (process_boxes boxes acc).
Proof.
  induction boxes as [| box rest IH]; intro acc; simpl.
  - intro s. apply one_alert_refl.
  - apply preserves_bind;
      [exact one_alert_trans | apply process_box_one_alert | exact IH].
Qed.

End OneAlertPerFrame.

(** X6.  However many qualifying boxes a frame holds, processing it starts
    at most one alert, provided the clock readings taken during the frame
    lie less than the cooldown apart. *)
Theorem X6_one_alert_per_frame :
  forall (d : Detector) (w : World) (frame : Frame),
    (forall i j,
        (clock_reads w <= i)%nat -> (i <= j)%nat ->
        (clock w j - clock w i < notification_cooldown d)%Q) ->
    (alerts (events_since w (snd (snd (process_frame frame (d, w))))) <= 1)%nat.
Proof.
  intros d w frame Hwin.
  assert (Hone : one_alert (clock w) (notification_cooldown d)
                   (clock_reads w) (d, w)
                   (snd (process_frame frame (d, w)))).
  { unfold process_frame.
    rewrite (bind_Ret _ (eq_refl : get_self (d, w) = (Ret d, (d, w)))).
    destruct (model d) as [net |].
    - apply process_boxes_one_alert. exact Hwin.
    - apply one_alert_refl. }
  destruct (Hone eq_refl eq_refl (le_n _))
    as (_ & _ & _ & evs & Hlog & _ & Hcases).
  unfold events_since. simpl in Hlog.
  rewrite (events_since_app w evs _ Hlog).
  destruct Hcases as [[Hz _] | [Hone1 _]]; lia.
Qed.

Lemma X6_one_alert_per_frame_witness :
  let d := with_model (Some (fun _ => [example_person; example_person;
                                       example_person]))
                      example_names example_detector in
  let w := mkWorld (fun _ => 100) 0 [] true [] in
  (forall i j,
      (clock_reads w <= i)%nat -> (i <= j)%nat ->
      (clock w j - clock w i < notification_cooldown d)%Q) /\
  (alerts (events_since w (snd (snd (process_frame blank_frame (d, w)))))
   <= 1)%nat.
Proof.
  intros d w.
  assert (H : forall i j,
             (clock_reads w <= i)%nat -> (i <= j)%nat ->
             (clock w j - clock w i < notification_cooldown d)%Q)
    by (intros i j _ _; reflexivity).
  split; [exact H |].
  exact (X6_one_alert_per_frame d w blank_frame H).
Defined.

(** ** The loop around one iteration *)

Lemma bind_Raise {A B} {m : M A} (k : A -> M B) {s e s'} :
  m s = (Raise e, s') -> bind m k s = (Raise e, s').
Proof. intro H; unfold bind; rewrite H; reflexivity. Qed.

Section LogsOnly.

Variable ok : Event -> bool.

Lemma logs_only_refl : forall s, logs_only ok s s.
Proof. intro s. exists []. rewrite app_nil_r. auto. Qed.

Lemma logs_only_trans :
  forall a b c, logs_only ok a b -> logs_only ok b c -> logs_only ok a c.
Proof.
  intros a b c (e1 & H1 & O1) (e2 & H2 & O2). exists (e1 ++ e2).
  split; [rewrite H2, H1, app_assoc; reflexivity |].
  rewrite forallb_app, O1, O2. reflexivity.
Qed.

Lemma logs_only_emit e : ok e = true -> preserves (logs_only ok) (emit e).
Proof.
  intros He [d w]. exists [e]. simpl. rewrite He. auto.
Qed.

Lemma logs_only_time_time : preserves (logs_only ok) time_time.
Proof. intros [d w]. exists []. simpl. rewrite app_nil_r. auto. Qed.

Lemma logs_only_set_self f : preserves (logs_only ok) (set_self f).
Proof. intros [d w]. exists []. simpl. rewrite app_nil_r. auto. Qed.

Lemma logs_only_input p :
  ok (Printed p) = true -> preserves (logs_only ok) (input p).
Proof.
  intros Hp [d w]. exists [Printed p].
  unfold input, bind, print, emit; simpl. rewrite Hp.
  destruct (stdin w) as [| [l |] rest]; simpl; auto.
Qed.

End LogsOnly.

Ltac logs_only_steps_with ok known :=
  preserves_steps (logs_only_refl ok) (logs_only_trans ok)
    ltac:(first
            [ apply logs_only_emit; reflexivity
            | apply logs_only_time_time
            | apply logs_only_set_self
            | apply logs_only_input; reflexivity
            | known ]).

Lemma process_boxes_not_released boxes :
  forall acc, preserves (logs_only not_released) (process_boxes boxes acc).
Proof.
  induction boxes as [| box rest IH]; intro acc; simpl.
  - logs_only_steps_with not_released fail.
  - apply preserves_bind; [exact (logs_only_trans not_released) | | exact IH].
    unfold process_box, show_notification. destruct acc as [frame dets].
    logs_only_steps_with not_released fail.
Qed.

Lemma tick_not_released py_float i :
  preserves (logs_only not_released) (tick py_float i).
Proof.
  unfold tick, process_and_count, process_frame, show_and_poll,
    update_stats, save_detections, draw_ui_overlay, handle_keyboard_input,
    change_confidence, change_target, save_config, float, print.
  logs_only_steps_with not_released
    ltac:(apply process_boxes_not_released).
Qed.

Lemma while_true_not_released py_float inputs :
  preserves (logs_only not_released) (while_true py_float inputs).
Proof.
  induction inputs as [| i rest IH]; simpl.
  - intro s. apply logs_only_refl.
  - apply preserves_bind;
      [exact (logs_only_trans not_released) | apply tick_not_released |].
    intros [|]; [exact IH | intro s; apply logs_only_refl].
Qed.

(** X7.  The loop releases the capture and prints the final counters
    exactly when it ends, by a key, a failed read or an exception, and
    does so once, as the last thing; while it runs nothing is released.  An
    exception other than an interrupt is raised again after that. *)
Theorem X7_cleanup_exactly_when_loop_ends :
  forall py_float (inputs : list TickInput) (s : St),
    let r := run_loop py_float inputs s in
    (fst r = Ret Continue ->
     logs_only not_released s (snd r)) /\
    (fst r <> Ret Continue ->
     exists evs,
       log (snd (snd r))
       = log (snd s) ++ evs
         ++ [Released;
             Printed (MsgDetectionStats (detection_stats (fst (snd r))))] /\
       forallb not_released evs = true) /\
    (forall e,
        fst (while_true py_float inputs s) = Raise e ->
        e <> KeyboardInterrupt ->
        fst r = Raise e).
Proof.
  intros py_float inputs s r. subst r. unfold run_loop.
  pose proof (while_true_not_released py_float inputs s) as Hw.
  unfold try_except.
  destruct (while_true py_float inputs s) as [[[|] | e] [d1 w1]];
    cbn [fst snd] in *.
  - split; [intros _; exact Hw | split; [intro H; contradiction |]].
    intros e He; discriminate.
  - destruct Hw as (evs & Hlog & Hok). simpl in Hlog.
    split; [discriminate | split].
    + intros _. exists evs. split; [| exact Hok].
      unfold finally_block, bind, emit, print, get_self, ret; simpl.
      rewrite Hlog. repeat rewrite <- app_assoc. reflexivity.
    + intros e He; discriminate.
  - destruct Hw as (evs & Hlog & Hok). simpl in Hlog.
    destruct e; cbn [fst snd].
    1, 2, 4:
      (split; [discriminate | split];
       [ intros _; exists evs; split; [| exact Hok];
         unfold finally_block, bind, emit, print, get_self, raise; simpl;
         rewrite Hlog; repeat rewrite <- app_assoc; reflexivity
       | intros e He Hne; injection He as He; subst e; reflexivity ]).
    split; [discriminate | split].
    + intros _. exists (evs ++ [Printed MsgInterrupted]). split.
      * unfold finally_block, bind, emit, print, get_self, ret; simpl.
        rewrite Hlog. repeat rewrite <- app_assoc. reflexivity.
      * rewrite forallb_app, Hok. reflexivity.
    + intros e He Hne. injection He as He. subst e. contradiction.
Qed.

Lemma X7_cleanup_exactly_when_loop_ends_witness :
  fst (run_loop decimal_float [mkTick (Some blank_frame) (ord "q")]
         (example_detector, example_world)) <> Ret Continue /\
  exists evs,
    log (snd (snd (run_loop decimal_float
                     [mkTick (Some blank_frame) (ord "q")]
                     (example_detector, example_world))))
    = log example_world ++ evs
      ++ [Released;
          Printed (MsgDetectionStats
                     (detection_stats
                        (fst (snd (run_loop decimal_float
                                     [mkTick (Some blank_frame) (ord "q")]
                                     (example_detector,
                                      example_world))))))] /\
    forallb not_released evs = true.
Proof.
  assert (H : fst (run_loop decimal_float
                     [mkTick (Some blank_frame) (ord "q")]
                     (example_detector, example_world)) <> Ret Continue)
    by discriminate.
  split; [exact H |].
  exact (proj1 (proj2 (X7_cleanup_exactly_when_loop_ends decimal_float
                         [mkTick (Some blank_frame) (ord "q")]
                         (example_detector, example_world))) H).
Defined.




(** X9.  A failed read ends the loop at once: the iteration asks to stop,
    the inputs after it are not consumed, the detector is unchanged, and
    the failure is printed only when the loop is not paused. *)
Theorem X9_failed_read_ends_loop :
  forall py_float (i : TickInput) (rest : list TickInput)
         (d : Detector) (w : World),
    cap_read i = None ->
    while_true py_float (i :: rest) (d, w)
    = (Ret Break,
       (d, if paused d then w
           else world_emit (Printed MsgFailedToReadFrame) w)).
Proof.
  intros py_float i rest d w Hread.
  assert (Htick : tick py_float i (d, w)
                  = (Ret Break,
                     (d, if paused d then w
                         else world_emit (Printed MsgFailedToReadFrame) w))).
  { unfold tick.
    rewrite (bind_Ret _ (eq_refl : get_self (d, w) = (Ret d, (d, w)))).
    rewrite Hread. destruct (paused d); reflexivity. }
  cbn [while_true]. rewrite (bind_Ret _ Htick). reflexivity.
Qed.

Lemma X9_failed_read_ends_loop_witness :
  cap_read (mkTick None 0) = None /\
  while_true decimal_float [mkTick None 0; example_tick]
    (example_detector, example_world)
  = (Ret Break,
     (example_detector,
      world_emit (Printed MsgFailedToReadFrame) example_world)).
Proof.
  split; [reflexivity |].
  exact (X9_failed_read_ends_loop decimal_float (mkTick None 0)
           [example_tick] example_detector example_world eq_refl).
Defined.

Lemma process_boxes_app pre :
  forall rest acc s,
    process_boxes (pre ++ rest) acc s
    = bind (process_boxes pre acc) (process_boxes rest) s.
Proof.
  induction pre as [| box pre IH]; intros rest acc s.
  - reflexivity.
  - rewrite <- app_comm_cons, !process_boxes_cons.
    unfold bind at 1. rewrite process_boxes_cons.
    destruct (process_box box acc s) as [[acc' | e] s1]; [| reflexivity].
    rewrite IH. reflexivity.
Qed.

(** X10.  A box whose class id is not a key of [class_names] makes
    [process_frame] raise [KeyError], whatever its confidence, once the
    boxes before it are processed; the exception leaves the loop, and the
    detections of that frame are not counted. *)
Theorem X10_unknown_class_id_raises :
  forall py_float (i : TickInput) (rest : list TickInput)
         (d : Detector) (w : World) (frame : Frame)
         (net : Frame -> list Box) (pre post : list Box) (box : Box),
    paused d = false ->
    cap_read i = Some frame ->
    model d = Some net ->
    net frame = pre ++ box :: post ->
    Forall (resolvable (class_names d)) pre ->
    lookup_name (class_names d) (cls box) = None ->
    exists s',
      process_frame frame (d, w) = (Raise (KeyError (cls box)), s') /\
      while_true py_float (i :: rest) (d, w)
      = (Raise (KeyError (cls box)), s') /\
      detection_stats (fst s') = detection_stats d.
Proof.
  intros py_float i rest d w frame net pre post box
         Hrun Hread Hmodel Hnet Hpre Hnone.
  destruct (process_boxes_result pre frame [] d w Hpre)
    as (frame' & added & [d1 w1] & Heq & _).
  pose proof (process_boxes_throttle_only pre (frame, []) (d, w)) as Hsame.
  rewrite Heq in Hsame. destruct Hsame as (_ & Hnames & _ & Hstats & _).
  cbn [fst snd] in Hnames, Hstats.
  assert (Hbox : process_box box (frame', [] ++ added) (d1, w1)
                 = (Raise (KeyError (cls box)), (d1, w1))).
  { unfold process_box, bind, get_self; simpl.
    rewrite Hnames, Hnone. reflexivity. }
  assert (Hpf : process_frame frame (d, w)
                = (Raise (KeyError (cls box)), (d1, w1))).
  { unfold process_frame.
    rewrite (bind_Ret _ (eq_refl : get_self (d, w) = (Ret d, (d, w)))).
    rewrite Hmodel, Hnet, process_boxes_app, (bind_Ret _ Heq).
    rewrite process_boxes_cons, Hbox. reflexivity. }
  exists (d1, w1). split; [exact Hpf | split; [| exact Hstats]].
  cbn [while_true].
  assert (Htick : tick py_float i (d, w)
                  = (Raise (KeyError (cls box)), (d1, w1))).
  { unfold tick.
    rewrite (bind_Ret _ (eq_refl : get_self (d, w) = (Ret d, (d, w)))).
    rewrite Hrun, Hread. cbn [negb].
    apply bind_Raise. unfold process_and_count.
    apply bind_Raise. exact Hpf. }
  apply bind_Raise. exact Htick.
Qed.

Lemma X10_unknown_class_id_raises_witness :
  let d := with_model (Some example_net) [(0%Z, "person"%string)]
                      example_detector in
  exists s',
    process_frame blank_frame (d, example_world)
    = (Raise (KeyError 16), s') /\
    while_true decimal_float [example_tick] (d, example_world)
    = (Raise (KeyError 16), s') /\
    detection_stats (fst s') = detection_stats d.
Proof.
  intro d.
  exact (X10_unknown_class_id_raises decimal_float example_tick [] d
           example_world blank_frame example_net [example_person] []
           (mkBox 16 (9 # 10) (5, 6, 70, 80)%Z)
           eq_refl eq_refl eq_refl eq_refl
           ltac:(repeat constructor; discriminate) eq_refl).
Defined.

(** ** Rendering and persistence of a frame's detections *)

Lemma process_boxes_overlay boxes :
  forall frame detections d w,
    Forall (resolvable (class_names d)) boxes ->
    exists frame' added s' ops,
      process_boxes boxes (frame, detections) (d, w)
      = (Ret (frame', detections ++ added), s') /\
      pixels frame' = pixels frame /\
      overlay frame' = overlay frame ++ ops /\
      Forall (label_ok (config d)) ops /\
      map label_core ops = map core (filter (drawn (config d)) added).
Proof.
  induction boxes as [| box rest IH]; intros frame detections d w Hres.
  - exists frame, [], (d, w), []. simpl. rewrite !app_nil_r. auto.
  - inversion Hres as [| ? ? Hbox Hrest]; subst.
    destruct (lookup_name (class_names d) (cls box)) as [name |] eqn:Hname;
      [| contradiction].
    destruct (process_box_result box frame detections d w name Hname)
      as (ts & s1 & Hstep).
    pose proof (process_box_throttle_only box (frame, detections) (d, w))
      as Hsame.
    rewrite Hstep in Hsame. destruct s1 as [d1 w1].
    unfold lift in Hsame. simpl in Hsame.
    destruct Hsame as (_ & Hnames & Hcfg & _).
    rewrite process_boxes_cons, Hstep.
    rewrite <- Hnames in Hrest.
    destruct (kept (config d) box) eqn:Hkept.
    + set (det := mkDetection (PyStr.lower name) (conf box) (xyxy box) ts).
      set (marker := is_target_of (config d) (PyStr.lower name)).
      set (op := BoxLabel (xyxy box) (if marker then Green else Blue)
                          (PyStr.lower name) (conf box) marker).
      destruct (IH (if marker || Config.show_all_detections (config d)
                    then draw op frame else frame)
                   (detections ++ [det]) d1 w1 Hrest)
        as (frame' & added & s' & ops & Heq & Hpix & Hov & Hok & Hcore).
      rewrite Hcfg in Hok, Hcore.
      assert (Hdrawn : drawn (config d) det
                       = marker || Config.show_all_detections (config d))
        by reflexivity.
      exists frame', (det :: added), s'.
      destruct (marker || Config.show_all_detections (config d)) eqn:Hshow.
      * exists (op :: ops).
        split; [rewrite Heq, <- app_assoc; reflexivity |].
        split; [rewrite Hpix; reflexivity |].
        split; [rewrite Hov; simpl; rewrite <- app_assoc; reflexivity |].
        split.
        -- constructor; [| exact Hok]. simpl.
           split; [reflexivity | split; [reflexivity |]].
           split; [apply orb_true_iff; exact Hshow |].
           apply Qle_bool_iff. exact Hkept.
        -- simpl filter. rewrite Hdrawn. simpl. rewrite Hcore. reflexivity.
      * exists ops.
        split; [rewrite Heq, <- app_assoc; reflexivity |].
        split; [exact Hpix | split; [exact Hov | split; [exact Hok |]]].
        simpl filter. rewrite Hdrawn. exact Hcore.
    + destruct (IH frame detections d1 w1 Hrest)
        as (frame' & added & s' & ops & Heq & Hpix & Hov & Hok & Hcore).
      rewrite Hcfg in Hok, Hcore.
      exists frame', added, s', ops. auto.
Qed.

(** X11.  The labels [process_frame] draws are, in order, those of the
    detections that are target matches, or of all detections when
    [show_all_detections] is set: same name, confidence and rectangle;
    a label is green with the target marker or blue without it, and the
    pixels are left alone. *)
Theorem X11_labels_drawn :
  forall (d : Detector) (w : World) (frame : Frame) (net : Frame -> list Box),
    model d = Some net ->
    Forall (resolvable (class_names d)) (net frame) ->
    exists frame' detections s' ops,
      process_frame frame (d, w) = (Ret (frame', detections), s') /\
      pixels frame' = pixels frame /\
      overlay frame' = overlay frame ++ ops /\
      Forall (label_ok (config d)) ops /\
      map label_core ops = map core (filter (drawn (config d)) detections).
Proof.
  intros d w frame net Hmodel Hres.
  destruct (process_boxes_overlay (net frame) frame [] d w Hres)
    as (frame' & added & s' & ops & Heq & Hrest).
  exists frame', added, s', ops. split; [| exact Hrest].
  unfold process_frame.
  rewrite (bind_Ret _ (eq_refl : get_self (d, w) = (Ret d, (d, w)))).
  rewrite Hmodel. exact Heq.
Qed.

Lemma X11_labels_drawn_witness :
  model example_detector = Some example_net /\
  Forall (resolvable (class_names example_detector))
         (example_net blank_frame) /\
  exists frame' detections s' ops,
    process_frame blank_frame (example_detector, example_world)
    = (Ret (frame', detections), s') /\
    pixels frame' = pixels blank_frame /\
    overlay frame' = overlay blank_frame ++ ops /\
    Forall (label_ok (config example_detector)) ops /\
    map label_core ops
    = map core (filter (drawn (config example_detector)) detections).
Proof.
  assert (H1 : model example_detector = Some example_net) by reflexivity.
  assert (H2 : Forall (resolvable (class_names example_detector))
                      (example_net blank_frame))
    by (repeat constructor; discriminate).
  split; [exact H1 | split; [exact H2 |]].
  exact (X11_labels_drawn example_detector example_world blank_frame
           example_net H1 H2).
Defined.








(** ** Start of a session *)

(** X13.  At the start of a session each key that the command line can set
    holds the command-line value when one is given (a model or target
    string only when it is not empty), and otherwise what [load_config]
    returned; an override never touches a key other than its own. *)
Theorem X13_command_line_takes_precedence :
  forall (args : Args) (file : ConfigFile) (w : World),
    let loaded := fst (load_config file w) in
    let c := config (fst (main_detector args file w)) in
    Config.confidence_threshold c
    = match arg_confidence args with
      | Some q => q
      | None => Config.confidence_threshold loaded
      end /\
    Config.video_source c
    = match arg_source args with
      | Some v => v
      | None => Config.video_source loaded
      end /\
    Config.model_path c
    = match arg_model args with
      | Some (String a r) => String a r
      | _ => Config.model_path loaded
      end /\
    Config.target_classes c
    = match arg_targets args with
      | Some (String a r) => split_targets (String a r)
      | _ => Config.target_classes loaded
      end /\
    Config.ndi_sources c = Config.ndi_sources loaded /\
    Config.display_size c = Config.display_size loaded /\
    Config.show_all_detections c = Config.show_all_detections loaded /\
    Config.save_detections c = Config.save_detections loaded /\
    Config.output_file c = Config.output_file loaded.
Proof.
  intros args file w loaded c. subst loaded c.
  unfold main_detector, init.
  destruct (load_config file w) as [cfg w']. cbn [fst config with_config].
  unfold apply_overrides.
  destruct (arg_model args) as [[| a r] |];
    destruct (arg_source args); destruct (arg_confidence args);
    destruct (arg_targets args) as [[| a' r'] |];
    repeat split.
Qed.

(** ** Source selection *)

Lemma scan_length camera indices :
  (List.length (fst (scan camera indices)) <= List.length indices)%nat.
Proof.
  induction indices as [| i rest IH]; simpl; [lia |].
  destruct (scan camera rest) as [found msgs].
  destruct (camera i); simpl in *; lia.
Qed.

Lemma choose_range py_int count console :
  forall c rest out,
    choose py_int count console = (Ret c, rest, out) ->
    (0 <= c)%Z /\ (c = 0%Z \/ (c < Z.of_nat count)%Z).
Proof.
  induction console as [| item console IH]; intros c rest out H.
  - discriminate.
  - destruct item as [l |]; [| discriminate]. simpl in H.
    destruct (PyStr.truthy (PyStr.strip l)).
    + destruct (py_int (PyStr.strip l)) as [v |].
      * destruct ((0 <=? v) && (v <? Z.of_nat count))%Z eqn:Hv.
        -- injection H as Hc _ _. subst v.
           apply andb_true_iff in Hv. destruct Hv as [H0 H1].
           apply Z.leb_le in H0. apply Z.ltb_lt in H1. auto.
        -- destruct (choose py_int count console) as [[r rest'] out'].
           injection H as Hr _ _. subst r. apply (IH c rest' out' eq_refl).
      * destruct (choose py_int count console) as [[r rest'] out'].
        injection H as Hr _ _. subst r. apply (IH c rest' out' eq_refl).
    + injection H as Hc _ _. subst c. split; [lia | left; reflexivity].
Qed.

Lemma choose_all_rejected py_int count console :
  Forall (rejected_choice py_int count) console ->
  fst (fst (choose py_int count console)) = Raise EOFError.
Proof.
  induction console as [| item console IH]; intro Hall; [reflexivity |].
  inversion Hall as [| ? ? Hitem Hrest]; subst.
  destruct item as [l |]; [| contradiction]. simpl.
  destruct Hitem as [Hne Hbad].
  destruct (PyStr.strip l) as [| a r] eqn:Hs; [contradiction |]. simpl.
  specialize (IH Hrest).
  destruct (py_int (String a r)) as [v |].
  - assert (Hv : ((0 <=? v) && (v <? Z.of_nat count))%Z = false).
    { destruct ((0 <=? v) && (v <? Z.of_nat count))%Z eqn:Hb;
        [| reflexivity].
      exfalso. apply Hbad. apply andb_true_iff in Hb.
      destruct Hb as [H0 H1]. apply Z.leb_le in H0. apply Z.ltb_lt in H1.
      lia. }
    rewrite Hv.
    destruct (choose py_int count console) as [[r' rest'] out']. exact IH.
  - destruct (choose py_int count console) as [[r' rest'] out']. exact IH.
Qed.

(** X14.  [select_video_source] returns a position in the list of sources
    that were found, below their number and below 20, or 0 for a blank
    answer; it is not the capture index of the chosen source.  With no
    source found it returns 0 without reading the console.  Answers that
    are not numbers of the list are skipped, and when the console ends
    before a valid one, [EOFError] reaches the caller. *)
Theorem X14_select_video_source_returns_position :
  forall (camera : Z -> option Probe) (py_int : string -> option Z)
         (console : list Typed),
    let sources := fst (discover_ndi_sources camera) in
    (List.length sources <= 20)%nat /\
    (forall c rest out,
        select_video_source camera py_int console = (Ret c, rest, out) ->
        (0 <= c)%Z /\
        (c = 0%Z \/ (c < Z.of_nat (List.length sources))%Z)) /\
    (sources = [] ->
     exists out,
       select_video_source camera py_int console = (Ret 0%Z, console, out)) /\
    (sources <> [] ->
     Forall (rejected_choice py_int (List.length sources)) console ->
     fst (fst (select_video_source camera py_int console)) = Raise EOFError).
Proof.
  intros camera py_int console sources. subst sources.
  unfold select_video_source, discover_ndi_sources.
  pose proof (scan_length camera (map Z.of_nat (seq 0 20))) as Hlen.
  rewrite length_map, length_seq in Hlen.
  destruct (scan camera (map Z.of_nat (seq 0 20))) as [sources msgs].
  cbn [fst] in *.
  split; [exact Hlen |].
  split; [| split].
  - intros c rest out H. destruct sources as [| s0 sources].
    + injection H as Hc _ _. subst c. split; [lia | left; reflexivity].
    + destruct (choose py_int (List.length (s0 :: sources)) console)
        as [[r rest'] out'] eqn:Hch.
      injection H as Hr _ _. subst r.
      exact (choose_range py_int _ console c rest' out' Hch).
  - intro He. subst sources. eexists. reflexivity.
  - intros Hne Hall. destruct sources as [| s0 sources]; [contradiction |].
    pose proof (choose_all_rejected py_int _ console Hall) as H.
    destruct (choose py_int (List.length (s0 :: sources)) console)
      as [[r rest'] out']. exact H.
Qed.

Lemma X14_select_video_source_returns_position_witness :
  fst (discover_ndi_sources example_camera) = [(3%Z, mkProbe 1280 720 30)] /\
  exists out,
    select_video_source example_camera example_int [Line "3"; Line "0"]
    = (Ret 0%Z, [], out) /\
    (0 < Z.of_nat (List.length (fst (discover_ndi_sources example_camera))))%Z.
Proof.
  split; [reflexivity |].
  destruct (select_video_source example_camera example_int
              [Line "3"; Line "0"]) as [[r rest] out] eqn:Hsel.
  assert (Hr : r = Ret 0%Z /\ rest = [])
    by (vm_compute in Hsel; injection Hsel as Hr Hrest _; subst; auto).
  destruct Hr as [Hr Hrest]. subst r rest.
  exists out. split; [reflexivity |].
  destruct (proj1 (proj2 (X14_select_video_source_returns_position
                            example_camera example_int
                            [Line "3"; Line "0"])) 0%Z [] out Hsel)
    as [_ [_ | Hlt]]; [reflexivity | exact Hlt].
Defined.

(** ** Two consequences for the operator *)

(** X15.  When "person" is not among the lowercase target classes, no
    frame starts an alert or touches the throttle timestamp, whatever the
    model returns. *)
Theorem X15_no_person_target_no_alert :
  forall (d : Detector) (w : World) (frame : Frame),
    ~ In "person"%string
         (map PyStr.lower (Config.target_classes (config d))) ->
    fst (snd (process_frame frame (d, w))) = d /\
    log (snd (snd (process_frame frame (d, w)))) = log w.
Proof.
  intros d w frame Hnot.
  unfold process_frame.
  rewrite (bind_Ret _ (eq_refl : get_self (d, w) = (Ret d, (d, w)))).
  destruct (model d) as [net |]; [| split; reflexivity].
  apply (process_boxes_quiet (net frame) (frame, []) d w).
  apply Forall_forall. intros box _. unfold notify_candidate.
  destruct (String.eqb (label_of (class_names d) box) "person") eqn:Heq;
    [| reflexivity].
  apply String.eqb_eq in Heq. rewrite Heq. simpl.
  destruct (is_target_of (config d) "person") eqn:Ht; [| reflexivity].
  exfalso. apply Hnot. apply is_target_of_In. exact Ht.
Qed.

Lemma X15_no_person_target_no_alert_witness :
  let d := with_config
             (Config.with_target_classes ["dog"%string; "cat"%string]
                (config example_detector))
             example_detector in
  ~ In "person"%string
       (map PyStr.lower (Config.target_classes (config d))) /\
  fst (snd (process_frame blank_frame (d, example_world))) = d /\
  log (snd (snd (process_frame blank_frame (d, example_world)))) = [].
Proof.
  intro d.
  assert (H : ~ In "person"%string
                   (map PyStr.lower (Config.target_classes (config d)))).
  { simpl. intros [H | [H | H]]; [discriminate | discriminate | exact H]. }
  split; [exact H |].
  exact (X15_no_person_target_no_alert d example_world blank_frame H).
Defined.

(** X16.  The key [s] leaves the detector alone and always ends with the
    line "Configuration saved!": after a write of the current
    configuration when the file can be opened, and after the error line,
    with nothing written, when it cannot. *)
Theorem X16_save_key :
  forall py_float (d : Detector) (w : World),
  exists w',
    handle_keyboard_input py_float (ord "s") (d, w) = (Ret true, (d, w')) /\
    log w'
    = log w
      ++ (if disk_ok w then [ConfigWritten (config d)]
          else [Printed MsgErrorSavingConfig])
      ++ [Printed MsgConfigurationSaved].
Proof.
  intros py_float d w.
  unfold handle_keyboard_input.
  change (Z.eqb (ord "s") (ord "q")) with false.
  change (Z.eqb (ord "s") (ord " ")) with false.
  change (Z.eqb (ord "s") (ord "h")) with false.
  change (Z.eqb (ord "s") (ord "c")) with false.
  change (Z.eqb (ord "s") (ord "t")) with false.
  change (Z.eqb (ord "s") (ord "s")) with true.
  cbv iota.
  unfold save_config, bind, get_self, get_disk_ok, print, emit, ret.
  cbn [fst snd].
  destruct (disk_ok w); cbn [fst snd log];
    (eexists; split; [reflexivity |]); cbn [log];
    rewrite <- app_assoc; reflexivity.
Qed.
